(** * docarray: index resolution of [__setitem__] and the storage mixins

    A shallow embedding of

    - [docarray/array/mixins/setitem.py] ([SetItemMixin]),
    - [docarray/array/storage/redis/getsetdel.py] and [backend.py],
    - [docarray/array/storage/qdrant/getsetdel.py] and [seqlike.py],
    - [docarray/array/storage/elastic/seqlike.py] and [backend.py].

    Python objects are a tagged union [value]; a method that mutates the
    collection and may raise is a function [Store -> (A + exn) * Store]:
    the store that comes back with an exception is the store at the
    moment of the [raise], so partial mutation is visible. *)

From Stdlib Require Import Ascii ZArith QArith Lia.
From stdpp Require Import base strings list gmap.

Set Warnings "-register-all".
Open Scope string_scope.
Open Scope list_scope.
Open Scope Z_scope.

(* ================================================================= *)
(** ** Python objects *)

Module Py.

(** Modelled from the spec: the [Document] class is not among the
    sources.  A document is a record identified by [id], with a text
    payload and the two array-like attributes of section 3 of the
    specification, and free-form [tags]. *)
Record Document := mkDocument {
  id : string;
  text : string;
  embedding : option (list Q);
  tensor : option (list Q);
  tags : list (string * string)
}.

(** A [float]: a finite number (its exact value), an infinity or a
    NaN. *)
Inductive pyfloat :=
| Finite (q : Q)
| Infinity (negative : bool)
| NaN.

(** NumPy scalars ([np.generic]) of the numeric kinds; [np.float64]
    holds the same values as [float]. *)
Inductive npscalar :=
| NpInt (z : Z)
| NpFloat (x : pyfloat)
| NpBool (b : bool).

(** The buffer of a numeric [np.ndarray], in row-major order; arrays are
    homogeneous, so the dtype tags the whole buffer. *)
Inductive ndbuffer :=
| NdInt (l : list Z)
| NdFloat (l : list pyfloat)
| NdBool (l : list bool).

Record ndarray := mkNdarray { shape : list nat; buffer : ndbuffer }.

Inductive value :=
| VNone
| VBool (b : bool)
| VInt (z : Z)
| VFloat (x : pyfloat)
| VStr (s : string)
| VEllipsis
| VSlice (start stop step : option Z)
| VList (l : list value)
| VTuple (l : list value)
| VNp (x : npscalar)
| VNdarray (a : ndarray)
| VDoc (d : Document)
| VDocs (ds : list Document)   (* an in-memory DocumentArray *).

(** Exceptions.  The ones raised in [setitem.py] carry the values their
    message is formatted from. *)
Inductive exn :=
| MaskLengthMismatch (self_len mask_len : nat)   (* IndexError, setitem.py:146 *)
| NdimNotOne (ndim : nat)                        (* IndexError, setitem.py:99 *)
| UnsupportedIndexType (tn : string) (index : value) (* IndexError, setitem.py:103 *)
| NeitherIdNorAttribute (idx2 : value)           (* ValueError, setitem.py:122 *)
| NotAttributeOrList (idx2 : value)              (* ValueError, setitem.py:139 *)
| SequenceIndexOutOfRange                        (* IndexError of [index[0]] on an empty sequence *)
| NoLen (tn : string)                            (* TypeError: object of type 'tn' has no len() *)
| NotIterable (tn : string)                      (* TypeError: 'tn' object is not iterable *)
| NoAttribute (tn attr : string)                 (* AttributeError *)
| KeyError (key : value)
| ResponseError (msg : string)                   (* redis.exceptions.ResponseError *)
| UnexpectedResponse (status_code : nat)         (* qdrant_openapi_client.exceptions *)
| IndexOutOfRange (offset : Z)                   (* IndexError of an offset primitive *)
| LengthMismatch (n_docs n_values : nat)         (* ValueError of set-by-value-pairs *)
| SliceStepZero                                  (* ValueError: slice step cannot be zero *)
| RecursionError
| FloatNaNToInt                                  (* ValueError: cannot convert float NaN to integer *)
| FloatInfinityToInt                             (* OverflowError: cannot convert float infinity to integer *)
| StrIndexNotInt                                 (* TypeError: string indices must be integers *)
| IntArgument (tn : string)                      (* TypeError: int() argument must be ... a real number, not '...' *).

Inductive exn_class :=
| IndexErrorC | ValueErrorC | TypeErrorC | AttributeErrorC | KeyErrorC
| RecursionErrorC | ResponseErrorC | UnexpectedResponseC | OverflowErrorC.

Definition class_of (e : exn) : exn_class :=
  match e with
  | MaskLengthMismatch _ _ | NdimNotOne _ | UnsupportedIndexType _ _
  | SequenceIndexOutOfRange | IndexOutOfRange _ => IndexErrorC
  | NeitherIdNorAttribute _ | NotAttributeOrList _ | LengthMismatch _ _
  | SliceStepZero | FloatNaNToInt => ValueErrorC
  | NoLen _ | NotIterable _ | StrIndexNotInt | IntArgument _ => TypeErrorC
  | FloatInfinityToInt => OverflowErrorC
  | NoAttribute _ _ => AttributeErrorC
  | KeyError _ => KeyErrorC
  | RecursionError => RecursionErrorC
  | ResponseError _ => ResponseErrorC
  | UnexpectedResponse _ => UnexpectedResponseC
  end.

(** The name of the object's class as the interpreter shows it in its
    own messages ([type(v).__name__], with the module for NumPy's
    types). *)
Definition class_name (v : value) : string :=
  match v with
  | VNone => "NoneType"
  | VBool _ => "bool"
  | VInt _ => "int"
  | VFloat _ => "float"
  | VStr _ => "str"
  | VEllipsis => "ellipsis"
  | VSlice _ _ _ => "slice"
  | VList _ => "list"
  | VTuple _ => "tuple"
  | VNp (NpInt _) => "numpy.int64"
  | VNp (NpFloat _) => "numpy.float64"
  | VNp (NpBool _) => "numpy.bool_"
  | VNdarray _ => "numpy.ndarray"
  | VDoc _ => "Document"
  | VDocs _ => "DocumentArray"
  end.

(** [helper.typename], which is not among the sources: the class of
    the object qualified by its module,
    [f'{cls.__module__}.{cls.__name__}']. *)
Definition typename (v : value) : string :=
  match v with
  | VNp _ | VNdarray _ => class_name v
  | VDoc _ => "docarray.document.Document"
  | VDocs _ => "docarray.array.memory.DocumentArrayInMemory"
  | _ => "builtins." +:+ class_name v
  end.

(** *** [isinstance] tests used by the mixin *)

(** [isinstance(v, bool)] *)
Definition is_bool (v : value) : bool :=
  match v with VBool _ => true | _ => false end.

(** [isinstance(v, int)]: [bool] is a subclass of [int]; NumPy integers
    are not. *)
Definition is_int (v : value) : bool :=
  match v with VInt _ | VBool _ => true | _ => false end.

(** [isinstance(v, np.generic)] *)
Definition is_np_generic (v : value) : bool :=
  match v with VNp _ => true | _ => false end.

(** [isinstance(v, str)] *)
Definition is_str (v : value) : bool :=
  match v with VStr _ => true | _ => false end.

(** [isinstance(v, slice)] *)
Definition is_slice (v : value) : bool :=
  match v with VSlice _ _ _ => true | _ => false end.

(** [v is Ellipsis] *)
Definition is_ellipsis (v : value) : bool :=
  match v with VEllipsis => true | _ => false end.

(** [isinstance(v, tuple)] *)
Definition is_tuple (v : value) : bool :=
  match v with VTuple _ => true | _ => false end.

(** [isinstance(v, (list, tuple))] *)
Definition is_list_or_tuple (v : value) : bool :=
  match v with VList _ | VTuple _ => true | _ => false end.

(** [isinstance(v, collections.abc.Sequence)]: [str], [list], [tuple]
    and [DocumentArray] are sequences; [np.ndarray] is not registered
    as one. *)
Definition is_sequence (v : value) : bool :=
  match v with VStr _ | VList _ | VTuple _ | VDocs _ => true | _ => false end.

(** [isinstance(v, np.ndarray)] *)
Definition is_ndarray (v : value) : bool :=
  match v with VNdarray _ => true | _ => false end.

(** *** Conversions and protocols *)

(** [int(x)] of a float: truncation towards zero; a NaN and the
    infinities have no integer. *)
Definition float_to_int (x : pyfloat) : Z + exn :=
  match x with
  | Finite q => inl (Z.quot (Qnum q) (Z.pos (Qden q)))
  | Infinity _ => inr FloatInfinityToInt
  | NaN => inr FloatNaNToInt
  end.

(** [int(v)] of a number, the only objects the setter converts; of
    the other objects only those that [int] refuses outright matter
    here (a [str], which [int] would parse, never reaches it). *)
Definition py_int (v : value) : Z + exn :=
  match v with
  | VInt z => inl z
  | VBool b => inl (Z.b2z b)
  | VNp (NpInt z) => inl z
  | VNp (NpBool b) => inl (Z.b2z b)
  | VNp (NpFloat x) => float_to_int x
  | VFloat x => float_to_int x
  | _ => inr (IntArgument (class_name v))
  end.

(** [bool(x)] of a float: every float but the zeros is true, a NaN
    too. *)
Definition truthy_float (x : pyfloat) : bool :=
  match x with
  | Finite q => negb (Z.eqb (Qnum q) 0)
  | Infinity _ | NaN => true
  end.

(** The string carried by a [str]. *)
Definition str_of (v : value) : string :=
  match v with VStr s => s | _ => EmptyString end.

(** [s.startswith('@')] *)
Definition startswith_at (s : string) : bool :=
  match s with String "@"%char _ => true | _ => false end.

(** [s[1:]] *)
Definition str_tail (s : string) : string :=
  match s with String _ r => r | EmptyString => EmptyString end.

Fixpoint chars (s : string) : list string :=
  match s with
  | EmptyString => []
  | String c r => String c EmptyString :: chars r
  end.

Definition np_native (x : npscalar) : value :=
  match x with
  | NpInt z => VInt z
  | NpFloat x => VFloat x
  | NpBool b => VBool b
  end.

Definition buffer_scalars (b : ndbuffer) : list npscalar :=
  match b with
  | NdInt l => map NpInt l
  | NdFloat l => map NpFloat l
  | NdBool l => map NpBool l
  end.

Definition buffer_slice (from n : nat) (b : ndbuffer) : ndbuffer :=
  match b with
  | NdInt l => NdInt (take n (drop from l))
  | NdFloat l => NdFloat (take n (drop from l))
  | NdBool l => NdBool (take n (drop from l))
  end.

(** The array carried by an [np.ndarray]. *)
Definition array_of (v : value) : ndarray :=
  match v with VNdarray a => a | _ => mkNdarray [] (NdInt []) end.

(** [a.squeeze()]: every axis of length one is dropped; the buffer is
    shared. *)
Definition squeeze (a : ndarray) : ndarray :=
  {| shape := filter (fun n => n ≠ 1%nat) (shape a); buffer := buffer a |}.

(** [a.ndim] *)
Definition ndim (a : ndarray) : nat := length (shape a).

(** [a.tolist()] of a one-dimensional array: the plain list of
    Python-native scalars. *)
Definition tolist (a : ndarray) : value :=
  VList (map np_native (buffer_scalars (buffer a))).

(** The items [for x in v] goes through; [None] when [v] is not
    iterable.  A string yields its characters, an array its rows (NumPy
    scalars when it is one-dimensional, and nothing iterable when it is
    zero-dimensional). *)
Definition items (v : value) : option (list value) :=
  match v with
  | VStr s => Some (map VStr (chars s))
  | VList l | VTuple l => Some l
  | VDocs ds => Some (map VDoc ds)
  | VNdarray a =>
      match shape a with
      | [] => None
      | [n] => Some (map VNp (buffer_scalars (buffer_slice 0 n (buffer a))))
      | n :: rest =>
          let row := foldr Nat.mul 1%nat rest in
          Some (map (fun i => VNdarray {| shape := rest;
                                          buffer := buffer_slice (i * row) row (buffer a) |})
                    (seq 0 n))
      end
  | _ => None
  end.

(** [iter(v)] *)
Definition py_iter (v : value) : list value + exn :=
  match items v with
  | Some l => inl l
  | None => inr (NotIterable (class_name v))
  end.

(** [len(v)] *)
Definition py_len (v : value) : nat + exn :=
  match v with
  | VStr s => inl (String.length s)
  | VList l | VTuple l => inl (length l)
  | VDocs ds => inl (length ds)
  | VNdarray a =>
      match shape a with
      | [] => inr (NoLen "numpy.ndarray")
      | n :: _ => inl n
      end
  | _ => inr (NoLen (class_name v))
  end.

(** [index[0]] on a sequence. *)
Definition first (v : value) : value + exn :=
  match items v with
  | Some (x :: _) => inl x
  | Some [] => inr SequenceIndexOutOfRange
  | None => inr (NotIterable (class_name v))
  end.

Definition truthy_np (x : npscalar) : bool :=
  match x with
  | NpInt z => negb (Z.eqb z 0)
  | NpFloat x => truthy_float x
  | NpBool b => b
  end.

(** [bool(v)] *)
Definition truthy (v : value) : bool :=
  match v with
  | VNone => false
  | VBool b => b
  | VInt z => negb (Z.eqb z 0)
  | VFloat x => truthy_float x
  | VStr s => negb (Nat.eqb (String.length s) 0)
  | VList l | VTuple l => negb (Nat.eqb (length l) 0)
  | VDocs ds => negb (Nat.eqb (length ds) 0)
  | VNp x => truthy_np x
  | _ => true
  end.

(** [itertools.compress(data, selectors)] *)
Fixpoint compress {A} (data : list A) (selectors : list value) : list A :=
  match data, selectors with
  | d :: data', s :: selectors' =>
      if truthy s then d :: compress data' selectors' else compress data' selectors'
  | _, _ => []
  end.

(** [obj.id] *)
Definition get_id (v : value) : string + exn :=
  match v with
  | VDoc d => inl (id d)
  | _ => inr (NoAttribute (class_name v) "id")
  end.

(** A Python-native scalar, as [tolist] produces them. *)
Definition native (v : value) : bool :=
  match v with VInt _ | VFloat _ | VBool _ => true | _ => false end.

(** [zip(xs, ys)] is [combine xs ys]. *)
Definition zip {A B} := @combine A B.

End Py.

(* ================================================================= *)
(** ** Computations on a store *)

Module Eff.
Import Py.

(** A method of the collection: it receives the store, returns a result
    or raises, and leaves a store behind. *)
Definition M (Store A : Type) : Type := Store -> (A + exn) * Store.

Section Ops.
Context {Store : Type}.

Definition ret {A} (a : A) : M Store A := fun st => (inl a, st).

Definition raise {A} (e : exn) : M Store A := fun st => (inr e, st).

Definition bind {A B} (m : M Store A) (k : A -> M Store B) : M Store B :=
  fun st =>
    match m st with
    | (inl a, st') => k a st'
    | (inr e, st') => (inr e, st')
    end.

(** An expression that does not look at the store. *)
Definition lift {A} (r : A + exn) : M Store A := fun st => (r, st).

(** An expression that only reads the store. *)
Definition read {A} (f : Store -> A + exn) : M Store A := fun st => (f st, st).

Definition get {A} (f : Store -> A) : M Store A := fun st => (inl (f st), st).

(** [for x in l: body(x)] *)
Fixpoint for_each {A} (l : list A) (body : A -> M Store unit) : M Store unit :=
  match l with
  | [] => ret tt
  | x :: l' => bind (body x) (fun _ => for_each l' body)
  end.
End Ops.

Declare Scope py_scope.
Delimit Scope py_scope with py.
Notation "x <- m ;; k" := (bind m (fun x => k))
  (at level 100, m at next level, right associativity) : py_scope.
Notation "m ;; k" := (bind m (fun _ => k))
  (at level 100, right associativity) : py_scope.

End Eff.

(* ================================================================= *)
(** ** [SetItemMixin] *)

Module SetItem.
Import Py Eff.
Local Open Scope py_scope.

(** What the mixin expects of the class it is mixed into.  None of
    these methods is defined in [setitem.py]; each storage backend
    brings its own. *)
Class Backend (Store : Type) := {
  (** [len(self)] *)
  len : Store -> nat;
  (** [x in self] *)
  contains : Store -> value -> bool;
  (** [iter(self)] *)
  iter_docs : Store -> list value;
  (** [self[index]], of [GetItemMixin]; it reads the collection *)
  getitem : Store -> value -> value + exn;
  (** [hasattr(obj, name)] *)
  hasattr : value -> string -> bool;
  (** [self.traverse_flat(path)] *)
  traverse_flat : Store -> string -> list value + exn;
  (** [self.flatten()] *)
  flatten : Store -> list value + exn;
  _set_doc_by_offset : Z -> value -> M Store unit;
  _set_doc_by_id : string -> value -> M Store unit;
  _set_docs_by_slice : value -> value -> M Store unit;
  _set_doc_value_pairs : list value -> value -> M Store unit;
  _set_doc_attr_by_id : value -> value -> value -> M Store unit;
  (** [_docs.tensors = _v], on the selection [_docs]; gives back the
      selection as it is afterwards *)
  set_tensors : value -> value -> M Store value;
  (** [_docs.embeddings = _v] *)
  set_embeddings : value -> value -> M Store value
}.

Section Mixin.
Context {Store : Type} {self : Backend Store}.

(** The items of a sequence (empty for what is not iterable). *)
Definition seq_items (v : value) : list value := default [] (items v).

(** [all(hasattr(self[idx1], attr) for attr in attrs)]: [self[idx1]]
    is looked up once per attribute, and the first [False] stops
    the scan. *)
Fixpoint all_hasattr (idx1 : value) (attrs : list value) : M Store bool :=
  match attrs with
  | [] => ret true
  | attr :: rest =>
      d <- read (fun st => getitem st idx1) ;;
      if hasattr d (str_of attr) then all_hasattr idx1 rest else ret false
  end.

(** [isinstance(idx2, str) and hasattr(self[idx1], idx2)] *)
Definition is_attribute (idx1 idx2 : value) : M Store bool :=
  if is_str idx2 then
    d <- read (fun st => getitem st idx1) ;;
    ret (hasattr d (str_of idx2))
  else ret false.

(** [isinstance(idx2, Sequence)
     and all(isinstance(attr, str) for attr in idx2)
     and all(hasattr(self[idx1], attr) for attr in idx2)] *)
Definition is_attribute_list (idx1 idx2 : value) : M Store bool :=
  if is_sequence idx2 && forallb is_str (seq_items idx2) then
    all_hasattr idx1 (seq_items idx2)
  else ret false.

(** [for attr, _v in zip(idx2, value): self._set_doc_attr_by_id(idx1, attr, _v)] *)
Definition set_attributes_of (idx1 idx2 value : value) : M Store unit :=
  vs <- lift (py_iter value) ;;
  for_each (zip (seq_items idx2) vs)
           (fun '(attr, _v) => _set_doc_attr_by_id idx1 attr _v).

(** [(self[idx1], self[idx2])] *)
Definition get_both (idx1 idx2 : value) : M Store (list value) :=
  d1 <- read (fun st => getitem st idx1) ;;
  d2 <- read (fun st => getitem st idx2) ;;
  ret [d1; d2].

(** [for _d in _docs: self._set_doc_by_id(_d.id, _d)] *)
Definition persist_docs (_docs : value) : M Store unit :=
  ds <- lift (py_iter _docs) ;;
  for_each ds (fun _d => i <- lift (get_id _d) ;; _set_doc_by_id i _d).

(** The loop [for _a, _v in zip(attributes, value)] of
    [_set_docs_attributes]; [_docs] is one object throughout, so what
    [_docs.tensors = _v] did to it is seen by the next iteration. *)
Fixpoint set_attributes_loop (_docs : value) (pairs : list (value * value))
  : M Store unit :=
  match pairs with
  | [] => ret tt
  | (_a, _v) :: rest =>
      if is_str _a && (String.eqb (str_of _a) "tensor"
                       || String.eqb (str_of _a) "embedding") then
        _docs' <- (if String.eqb (str_of _a) "tensor"
                   then set_tensors _docs _v
                   else set_embeddings _docs _v) ;;
        persist_docs _docs' ;;
        set_attributes_loop _docs' rest
      else if negb (is_list_or_tuple _v) then
        ds <- lift (py_iter _docs) ;;
        for_each ds (fun _d =>
          i <- lift (get_id _d) ;; _set_doc_attr_by_id (VStr i) _a _v) ;;
        set_attributes_loop _docs rest
      else
        ds <- lift (py_iter _docs) ;;
        for_each (zip ds (seq_items _v)) (fun '(_d, _vv) =>
          i <- lift (get_id _d) ;; _set_doc_attr_by_id (VStr i) _a _vv) ;;
        set_attributes_loop _docs rest
  end.

Definition _set_docs_attributes (index attributes value : value) : M Store unit :=
  let attributes :=
    if is_str attributes then VTuple [attributes] else attributes in
  let value :=
    if is_list_or_tuple value
       && negb (existsb is_list_or_tuple (seq_items value))
    then VTuple [value] else value in
  let value :=
    if negb (is_list_or_tuple value) then VTuple [value] else value in
  _docs <- read (fun st => getitem st index) ;;
  if negb (truthy _docs) then ret tt
  else
    attrs <- lift (py_iter attributes) ;;
    set_attributes_loop _docs (zip attrs (seq_items value)).

Definition _set_by_mask (mask value : value) : M Store unit :=
  n_mask <- lift (py_len mask) ;;
  n_self <- get len ;;
  if negb (Nat.eqb n_mask n_self) then
    raise (MaskLengthMismatch n_self n_mask)
  else
    _selected <- get (fun st => compress (iter_docs st) (seq_items mask)) ;;
    _set_doc_value_pairs _selected value.

Definition _set_by_pair (idx1 idx2 value : value) : M Store unit :=
  if is_str idx1 then
    (* second is an ID *)
    known <- get (fun st => is_str idx2 && contains st idx2) ;;
    if (known : bool) then
      both <- get_both idx1 idx2 ;; _set_doc_value_pairs both value
    else
      (* second is an attribute *)
      one <- is_attribute idx1 idx2 ;;
      if (one : bool) then _set_doc_attr_by_id idx1 idx2 value
      else
        (* second is a list of attributes *)
        many <- is_attribute_list idx1 idx2 ;;
        if (many : bool) then set_attributes_of idx1 idx2 value
        else raise (NeitherIdNorAttribute idx2)
  else if is_int idx1 then
    (* second is an offset *)
    if is_int idx2 then
      both <- get_both idx1 idx2 ;; _set_doc_value_pairs both value
    else
      (* second is an attribute *)
      one <- is_attribute idx1 idx2 ;;
      if (one : bool) then _set_doc_attr_by_id idx1 idx2 value
      else
        (* second is a list of attributes *)
        many <- is_attribute_list idx1 idx2 ;;
        if (many : bool) then set_attributes_of idx1 idx2 value
        else raise (NotAttributeOrList idx2)
  else if is_slice idx1 || is_sequence idx1 || is_ellipsis idx1 then
    _set_docs_attributes idx1 idx2 value
  else ret tt.

(** The body of [__setitem__]; [self_set si v] stands for the
    re-entrant [self[si] = v]. *)
Definition setitem_body (self_set : value -> value -> M Store unit)
           (index value : value) : M Store unit :=
  if (is_int index || is_np_generic index) && negb (is_bool index) then
    offset <- lift (py_int index) ;;
    _set_doc_by_offset offset value
  else if is_str index then
    if startswith_at (str_of index) then
      docs <- read (fun st => traverse_flat st (str_tail (str_of index))) ;;
      _set_doc_value_pairs docs value
    else _set_doc_by_id (str_of index) value
  else if is_slice index then
    _set_docs_by_slice index value
  else if is_ellipsis index then
    docs <- read flatten ;; _set_doc_value_pairs docs value
  else if is_sequence index then
    if is_tuple index && Nat.eqb (length (seq_items index)) 2 then
      _set_by_pair (nth 0 (seq_items index) VNone)
                   (nth 1 (seq_items index) VNone) value
    else
      index_0 <- lift (first index) ;;
      if is_bool index_0 then
        _set_by_mask index_0 value
      else if is_int index_0 || is_str index_0 then
        (* if single value *)
        if is_str value || negb (is_sequence value) then
          for_each (seq_items index) (fun si => self_set si value)
        else
          for_each (zip (seq_items index) (seq_items value))
                   (fun '(si, _val) => self_set si _val)
      else ret tt
  else if is_ndarray index then
    let index := squeeze (array_of index) in
    if Nat.eqb (ndim index) 1 then self_set (tolist index) value
    else raise (NdimNotOne (ndim index))
  else raise (UnsupportedIndexType (typename index) index).

(** How deep the re-entrant calls of [__setitem__] on an index go. *)
Fixpoint depth (index : value) : nat :=
  match index with
  | VList l | VTuple l => S (foldr (fun x n => Nat.max (depth x) n) 0%nat l)
  | VNdarray _ => 2
  | _ => 0
  end.

Fixpoint setitem_rec (fuel : nat) (index value : value) : M Store unit :=
  match fuel with
  | O => raise RecursionError
  | S fuel' => setitem_body (setitem_rec fuel') index value
  end.

(** [self[index] = value].  The recursion of the source is on the
    elements of the index, so [depth index] frames suffice. *)
Definition __setitem__ (index value : value) : M Store unit :=
  setitem_rec (S (depth index)) index value.

(** The paired-value set on two selected documents:
    [self._set_doc_value_pairs((self[idx1], self[idx2]), value)]. *)
Definition dual_selection (idx1 idx2 value : value) : M Store unit :=
  both <- get_both idx1 idx2 ;; _set_doc_value_pairs both value.

(** Rule 7 of the classification: a sequence that is not a pair and
    whose first element is an integer or a string, and not a
    boolean. *)
Definition offsets_or_ids (index : value) : bool :=
  is_sequence index && negb (is_str index)
  && negb (is_tuple index && Nat.eqb (length (seq_items index)) 2)
  && match seq_items index with
     | index_0 :: _ => negb (is_bool index_0) && (is_int index_0 || is_str index_0)
     | [] => false
     end.

(** The value is a single value: a string, or not a sequence. *)
Definition single_value (value : value) : bool :=
  is_str value || negb (is_sequence value).

(** The selector of a paired index goes to [_set_docs_attributes]. *)
Definition selects_many (idx1 : value) : bool :=
  negb (is_str idx1) && negb (is_int idx1)
  && (is_slice idx1 || is_sequence idx1 || is_ellipsis idx1).

(** An element of an index that is an offset or an identifier: an
    integer that is no boolean, or a string that is no traversal
    path. *)
Definition offset_or_id (si : value) : bool :=
  match si with
  | VInt _ => true
  | VStr _id => negb (startswith_at _id)
  | _ => false
  end.

(** Assigning [value] to the element an offset or an identifier
    selects: the offset primitive or the identifier primitive of the
    backend. *)
Definition set_element (si value : value) : M Store unit :=
  match si with
  | VInt offset => _set_doc_by_offset offset value
  | VStr _id => _set_doc_by_id _id value
  | _ => raise (UnsupportedIndexType (typename si) si)
  end.

End Mixin.
End SetItem.

(* ================================================================= *)
(** ** An in-memory collection *)

Module Memory.
Import Py Eff SetItem.
Local Open Scope py_scope.

(** Modelled from the spec: the base get/set/delete mixins and
    [GetItemMixin] are not among the sources.  The in-memory variant of
    the Storage Backend contract (section 6 of the specification) keeps
    the documents in offset order, so the Offset2ID table is the list of
    their identifiers. *)
Definition Store := list Document.

Definition offset2ids (st : Store) : list string := map id st.

(** Negative offsets index from the end. *)
Definition resolve_offset (n : nat) (z : Z) : option nat :=
  if (0 <=? z) && (z <? Z.of_nat n) then Some (Z.to_nat z)
  else if (- Z.of_nat n <=? z) && (z <? 0) then Some (Z.to_nat (z + Z.of_nat n))
  else None.

Fixpoint offset_of (s : string) (st : Store) : option nat :=
  match st with
  | [] => None
  | d :: st' => if String.eqb (id d) s then Some 0%nat
                else option_map S (offset_of s st')
  end.

Definition get_by_offset (st : Store) (z : Z) : value + exn :=
  match resolve_offset (length st) z with
  | Some k => match st !! k with
              | Some d => inl (VDoc d)
              | None => inr (IndexOutOfRange z)
              end
  | None => inr (IndexOutOfRange z)
  end.

Definition get_by_id (st : Store) (s : string) : value + exn :=
  match offset_of s st with
  | Some k => match st !! k with
              | Some d => inl (VDoc d)
              | None => inr (KeyError (VStr s))
              end
  | None => inr (KeyError (VStr s))
  end.

(** [range(n)[start:stop:step]], as [slice.indices] computes it. *)
Definition slice_offsets (n : nat) (start stop step : option Z) : list Z + exn :=
  let len := Z.of_nat n in
  let step := default 1 step in
  if step =? 0 then inr SliceStepZero
  else
    let lower := if 0 <? step then 0 else -1 in
    let upper := if 0 <? step then len else len - 1 in
    let clamp (z : Z) := if z <? 0 then Z.max (z + len) lower else Z.min z upper in
    let start := match start with
                 | None => if 0 <? step then lower else upper
                 | Some z => clamp z
                 end in
    let stop := match stop with
                | None => if 0 <? step then upper else lower
                | Some z => clamp z
                end in
    let count := if 0 <? step then (stop - start + step - 1) / step
                 else (start - stop - step - 1) / (- step) in
    inl (map (fun i => start + Z.of_nat i * step) (seq 0 (Z.to_nat count))).

(** [[f(x) for x in l]] where [f] may raise. *)
Fixpoint map_exn {A B} (f : A -> B + exn) (l : list A) : list B + exn :=
  match l with
  | [] => inl []
  | x :: l' => match f x with
               | inr e => inr e
               | inl y => match map_exn f l' with
                          | inr e => inr e
                          | inl ys => inl (y :: ys)
                          end
               end
  end.

Definition docs_of (vs : list value) : list Document :=
  omap (fun v => match v with VDoc d => Some d | _ => None end) vs.

(** [self.traverse_flat(path)]: the documents of this model have no
    chunks and no matches, so a path selects the collection itself when
    it names the root level and nothing otherwise. *)
Definition mem_traverse_flat (st : Store) (path : string) : list Document :=
  if String.eqb path "r" then st else [].

(** The attribute names of a document. *)
Definition attributes : list string :=
  ["id"; "text"; "embedding"; "tensor"; "tags"].

Definition mem_hasattr (v : value) (name : string) : bool :=
  match v with
  | VDoc _ => existsb (String.eqb name) attributes
  | _ => false
  end.

(** [self[index]] for the index forms of section 4.1 that select
    documents. *)
Definition mem_getitem (st : Store) (index : value) : value + exn :=
  if (is_int index || is_np_generic index) && negb (is_bool index) then
    match py_int index with
    | inl offset => get_by_offset st offset
    | inr e => inr e
    end
  else if is_str index then
    if startswith_at (str_of index)
    then inl (VDocs (mem_traverse_flat st (str_tail (str_of index))))
    else get_by_id st (str_of index)
  else
    match index with
    | VSlice start stop step =>
        match slice_offsets (length st) start stop step with
        | inr e => inr e
        | inl offs =>
            match map_exn (get_by_offset st) offs with
            | inr e => inr e
            | inl vs => inl (VDocs (docs_of vs))
            end
        end
    | VEllipsis => inl (VDocs st)
    | VList l | VTuple l =>
        match l with
        | [] => inr SequenceIndexOutOfRange
        | VBool _ :: _ =>
            if Nat.eqb (length l) (length st)
            then inl (VDocs (compress st l))
            else inr (MaskLengthMismatch (length st) (length l))
        | VInt _ :: _ =>
            match map_exn (fun i => match py_int i with
                                    | inl offset => get_by_offset st offset
                                    | inr e => inr e
                                    end) l with
            | inr e => inr e
            | inl vs => inl (VDocs (docs_of vs))
            end
        | VStr _ :: _ =>
            match map_exn (fun i => get_by_id st (str_of i)) l with
            | inr e => inr e
            | inl vs => inl (VDocs (docs_of vs))
            end
        | _ => inr (UnsupportedIndexType (typename index) index)
        end
    | _ => inr (UnsupportedIndexType (typename index) index)
    end.

Definition mem_contains (st : Store) (x : value) : bool :=
  match x with
  | VStr s => bool_decide (is_Some (offset_of s st))
  | VDoc d => bool_decide (is_Some (offset_of (id d) st))
  | _ => false
  end.

(** [set_by_offset(k, doc)]: replaces the payload at the offset; the
    identifier may change. *)
Definition mem_set_doc_by_offset (z : Z) (v : value) : M Store unit :=
  fun st =>
    match v, resolve_offset (length st) z with
    | VDoc d, Some k => (inl tt, <[k := d]> st)
    | VDoc _, None => (inr (IndexOutOfRange z), st)
    | _, _ => (inr (NoAttribute (class_name v) "id"), st)
    end.

(** [set_by_id(id, doc)]: replaces the payload stored under [id]. *)
Definition mem_set_doc_by_id (s : string) (v : value) : M Store unit :=
  fun st =>
    match v, offset_of s st with
    | VDoc d, Some k => (inl tt, <[k := d]> st)
    | VDoc _, None => (inr (KeyError (VStr s)), st)
    | _, _ => (inr (NoAttribute (class_name v) "id"), st)
    end.

(** The batch offset primitive of rule 3: one set-by-offset per offset
    of the slice, paired with the values in order. *)
Definition mem_set_docs_by_slice (index v : value) : M Store unit :=
  match index with
  | VSlice start stop step =>
      n <- get (fun st => length st) ;;
      offs <- lift (slice_offsets n start stop step) ;;
      vs <- lift (py_iter v) ;;
      for_each (zip offs vs) (fun '(k, x) => mem_set_doc_by_offset k x)
  | _ => raise (UnsupportedIndexType (typename index) index)
  end.

(** Set by value pairs: each document receives the corresponding value
    positionally; a length mismatch fails with [ValueError]. *)
Definition mem_set_doc_value_pairs (docs : list value) (values : value)
  : M Store unit :=
  n <- lift (py_len values) ;;
  if negb (Nat.eqb (length docs) n) then
    raise (LengthMismatch (length docs) n)
  else
    for_each (zip docs (seq_items values)) (fun '(_d, _v) =>
      i <- lift (get_id _d) ;; mem_set_doc_by_id i _v).

Definition floats_of (v : value) : option (option (list Q)) :=
  match v with
  | VNone => Some None
  | VList l | VTuple l =>
      Some (Some (omap (fun x => match x with
                                 | VFloat (Finite q) => Some q
                                 | VInt z => Some (inject_Z z)
                                 | _ => None
                                 end) l))
  | _ => None
  end.

(** [setattr(d, name, v)] *)
Definition set_attr (d : Document) (name : string) (v : value) : Document + exn :=
  if String.eqb name "id" then
    match v with
    | VStr s => inl (mkDocument s (text d) (embedding d) (tensor d) (tags d))
    | _ => inr (NotAttributeOrList v)
    end
  else if String.eqb name "text" then
    match v with
    | VStr s => inl (mkDocument (id d) s (embedding d) (tensor d) (tags d))
    | VNone => inl (mkDocument (id d) EmptyString (embedding d) (tensor d) (tags d))
    | _ => inr (NotAttributeOrList v)
    end
  else if String.eqb name "embedding" then
    match floats_of v with
    | Some e => inl (mkDocument (id d) (text d) e (tensor d) (tags d))
    | None => inr (NotAttributeOrList v)
    end
  else if String.eqb name "tensor" then
    match floats_of v with
    | Some t => inl (mkDocument (id d) (text d) (embedding d) t (tags d))
    | None => inr (NotAttributeOrList v)
    end
  else inr (NoAttribute "Document" name).

(** The single-attribute-by-id primitive. *)
Definition mem_set_doc_attr_by_id (i attr v : value) : M Store unit :=
  fun st =>
    match i with
    | VStr s =>
        match offset_of s st with
        | Some k =>
            match st !! k with
            | Some d =>
                match set_attr d (str_of attr) v with
                | inl d' => (inl tt, <[k := d']> st)
                | inr e => (inr e, st)
                end
            | None => (inr (KeyError i), st)
            end
        | None => (inr (KeyError i), st)
        end
    | _ => (inr (KeyError i), st)
    end.

(** The batch write of one array-like column on a selection: one row
    per selected document, or [None] for all of them. *)
Definition set_column (name : string) (_docs _v : value) : M Store value :=
  let ds := docs_of (seq_items _docs) in
  match _v with
  | VNone =>
      match map_exn (fun d => set_attr d name VNone) ds with
      | inl ds' => ret (VDocs ds')
      | inr e => raise e
      end
  | _ =>
      rows <- lift (py_iter _v) ;;
      if negb (Nat.eqb (length rows) (length ds)) then
        raise (LengthMismatch (length ds) (length rows))
      else
        match map_exn (fun '(d, r) => set_attr d name r) (zip ds rows) with
        | inl ds' => ret (VDocs ds')
        | inr e => raise e
        end
  end.

#[export] Instance backend : Backend Store := {|
  len := fun st => length st;
  contains := mem_contains;
  iter_docs := fun st => map VDoc st;
  getitem := mem_getitem;
  hasattr := mem_hasattr;
  traverse_flat := fun st path => inl (map VDoc (mem_traverse_flat st path));
  flatten := fun st => inl (map VDoc st);
  _set_doc_by_offset := mem_set_doc_by_offset;
  _set_doc_by_id := mem_set_doc_by_id;
  _set_docs_by_slice := mem_set_docs_by_slice;
  _set_doc_value_pairs := mem_set_doc_value_pairs;
  _set_doc_attr_by_id := mem_set_doc_attr_by_id;
  set_tensors := set_column "tensor";
  set_embeddings := set_column "embedding"
|}.

End Memory.

(* ================================================================= *)
(** ** Serialization *)

(** Modelled from the spec: [Document.to_base64] and
    [Document.from_base64] are external collaborators (section 1); a
    serializer is any pair of an encoder and a decoder on some type of
    blobs. *)
Class Serializer (Blob : Type) := {
  to_base64 : Py.Document -> Blob;
  from_base64 : Blob -> Py.Document
}.

(** Decoding gives back the document that was encoded. *)
Definition lossless {Blob} {ser : Serializer Blob} : Prop :=
  forall d, from_base64 (to_base64 d) = d.

(* ================================================================= *)
(** ** Redis storage: [redis/getsetdel.py], [redis/backend.py] *)

Module Redis.
Import Py Eff.
Local Open Scope py_scope.

(** What a key of the server holds. *)
Inductive rvalue :=
| RString (s : string)
| RHash (mapping : gmap string value)
| RList (l : list string).

(** The commands the mixin sends through [self._client]. *)
Inductive command :=
| GET (key : string)
| EXISTS (key : string)
| DEL (key : string).

(** The server as the client sees it: the keyspace, and the commands
    issued so far, oldest first. *)
Record Client := mkClient {
  db : gmap string rvalue;
  issued : list command
}.

(** [self._client.get(key)]: the string under [key], [None] when the key
    is missing, [ResponseError] when the key holds another type. *)
Definition client_get (key : string) : M Client value :=
  fun c =>
    let c' := mkClient (db c) (issued c ++ [GET key]) in
    match db c !! key with
    | None => (inl VNone, c')
    | Some (RString s) => (inl (VStr s), c')
    | Some _ => (inr (ResponseError "WRONGTYPE"), c')
    end.

(** [self._client.exists(key)]: how many of the keys exist. *)
Definition client_exists (key : string) : M Client value :=
  fun c =>
    (inl (VInt (if bool_decide (is_Some (db c !! key)) then 1 else 0)),
     mkClient (db c) (issued c ++ [EXISTS key])).

(** [self._client.delete(key)]: how many keys were removed. *)
Definition client_delete (key : string) : M Client value :=
  fun c =>
    (inl (VInt (if bool_decide (is_Some (db c !! key)) then 1 else 0)),
     mkClient (delete key (db c)) (issued c ++ [DEL key])).

(** [try: body except Exception as ex: raise handler(ex)] *)
Definition try_except {A} (body : M Client A) (handler : exn -> exn) : M Client A :=
  fun c =>
    match body c with
    | (inl a, c') => (inl a, c')
    | (inr ex, c') => (inr (handler ex), c')
    end.

(** What the mixin reads from [self] and [self._config] without
    defining it.  [key_prefix] is the attribute of that name of the
    configuration object: [RedisConfig] of [backend.py] declares no
    such field, so it is [None] for a configuration as declared, and
    [Some] only when the attribute has been put on the object by
    other means.  [_add], which no source file defines, is a
    parameter, and so is [_map_embedding], whose result is the byte
    image of a [float32] array. *)
Class Env (Blob : Type) := {
  key_prefix : option string;
  columns : list (string * string);
  tag_indices : list string;
  _map_embedding : option (list Q) -> value;
  blob_value : Blob -> value;
  _add : string -> gmap string value -> M Client unit
}.

Section Mixin.
Context {Blob : Type} {ser : Serializer Blob} {env : Env Blob}.

(** [doc.tags.get(key)] *)
Definition tags_get (doc : Document) (key : string) : value :=
  match list_find (fun kv => kv.1 = key) (tags doc) with
  | Some (_, (_, v)) => VStr v
  | None => VNone
  end.

(** [backend.py:141] *)
Definition _doc_id_exists (doc_id : string) : M Client value :=
  client_exists doc_id.

(** [self._config.key_prefix]: [AttributeError] when the
    configuration has no such attribute. *)
Definition config_key_prefix : M Client string :=
  match key_prefix with
  | Some prefix => ret prefix
  | None => raise (NoAttribute "RedisConfig" "key_prefix")
  end.

Definition _getitem (doc_id : string) : M Client value :=
  result <- try_except (prefix <- config_key_prefix ;;
                        client_get (prefix +:+ doc_id))
                       (fun ex => KeyError (VStr doc_id)) ;;
  (* doc = Document.from_base64(result['_source']['blob']) *)
  (* return doc *)
  ret VNone.

Definition _get_doc_by_id (_id : string) : M Client value :=
  _getitem _id.

Definition _del_doc_by_id (_id : string) : M Client unit :=
  prefix <- config_key_prefix ;;
  found <- _doc_id_exists (prefix +:+ _id) ;;
  if truthy found then
    prefix <- config_key_prefix ;;
    client_delete (prefix +:+ _id) ;; ret tt
  else ret tt.

Definition _document_to_redis (doc : Document) : gmap string value :=
  let extra_columns : gmap string value :=
    foldl (fun m '(col, _) => <[col := tags_get doc col]> m) ∅ columns in
  let payload : gmap string value :=
    extra_columns ∪ <["blob" := blob_value (to_base64 doc)]>
                      (<["embedding" := _map_embedding (embedding doc)]> ∅) in
  let payload :=
    foldl (fun m index => <[index := tags_get doc index]> m) payload tag_indices in
  if negb (Nat.eqb (String.length (text doc)) 0)
  then <["text" := VStr (text doc)]> payload
  else payload.

Definition _set_doc_by_id (_id : string) (value : Document) : M Client unit :=
  (if negb (String.eqb _id (id value)) then _del_doc_by_id _id else ret tt) ;;
  let payload := _document_to_redis value in
  _add _id payload.

End Mixin.
End Redis.

(* ================================================================= *)
(** ** Qdrant storage: [qdrant/getsetdel.py], [qdrant/seqlike.py] *)

Module Qdrant.
Import Py Eff.
Local Open Scope py_scope.

Section Mixin.
Context {Blob : Type} {ser : Serializer Blob}.

(** [QdrantStorageHelper.embedding_to_array], not among the sources:
    the vector stored with a point. *)
Variable embedding_to_array : option (list Q) -> list Q.

(** A point of the collection: [payload['_serialized']] and [vector]. *)
Record Point := mkPoint {
  _serialized : Blob;
  vector : list Q
}.

(** The collection behind [self.client], keyed by point id. *)
Definition Collection := gmap string Point.

(** [points_api.get_point(id=_id)]: a missing point is answered with
    status 404. *)
Definition get_point (_id : string) : M (gmap string Point) Point :=
  fun c =>
    match c !! _id with
    | Some p => (inl p, c)
    | None => (inr (UnexpectedResponse 404), c)
    end.

(** [points_api.delete_points(points_selector=PointIdsList(points))] *)
Definition delete_points (points : list string) : M (gmap string Point) unit :=
  fun c => (inl tt, foldl (fun m i => delete i m) c points).

(** [points_api.upsert_points(point_insert_operations=points)] *)
Definition upsert_points (points : list (string * Point))
  : M (gmap string Point) unit :=
  fun c => (inl tt, foldl (fun m '(i, p) => <[i := p]> m) c points).

(** What the mixin hands to [_qdrant_to_document]: a [dict] of a
    point, which is what the function is written for, or the text that
    [.json()] gives for a reply of the client, which is a [str]. *)
Inductive record :=
| Dict (point : Point)
| JsonText (reply : Point).

(** [reply.json()]: the reply serialized to a JSON string. *)
Definition json (reply : Point) : record := JsonText reply.

(** [qdrant_record['payload']] on a [str] raises [TypeError]: a string
    is indexed by integers only. *)
Definition _qdrant_to_document (qdrant_record : record) : value + exn :=
  match qdrant_record with
  | Dict point => inl (VDoc (from_base64 (_serialized point)))
  | JsonText _ => inr StrIndexNotInt
  end.

Definition _document_to_qdrant (doc : Document) : string * Point :=
  (id doc, mkPoint (to_base64 doc) (embedding_to_array (embedding doc))).

(** The [except] clause takes [UnexpectedResponse] only: what
    [_qdrant_to_document] raises goes through. *)
Definition _get_doc_by_id (_id : string) : M (gmap string Point) value :=
  fun c =>
    match (resp <- get_point _id ;;
           lift (_qdrant_to_document (json resp))) c with
    | (inr (UnexpectedResponse status_code), c') =>
        if Nat.eqb status_code 404 then (inr (KeyError (VStr _id)), c')
        else (inl VNone, c')
    | result => result
    end.

Definition _del_doc_by_id (_id : string) : M (gmap string Point) unit :=
  delete_points [_id].

Definition _set_doc_by_id (_id : string) (value : Document)
  : M (gmap string Point) unit :=
  (if negb (String.eqb _id (id value)) then _del_doc_by_id _id else ret tt) ;;
  upsert_points [_document_to_qdrant value].

(** [seqlike.py:50] *)
Definition _id_exists (x : string) : M (gmap string Point) bool :=
  fun c =>
    match _get_doc_by_id x c with
    | (inl _, c') => (inl true, c')
    | (inr (KeyError _), c') => (inl false, c')
    | (inr e, c') => (inr e, c')
    end.

(** [seqlike.py:42] *)
Definition __contains__ (x : value) : M (gmap string Point) bool :=
  match x with
  | VStr s => _id_exists s
  | VDoc d => _id_exists (id d)
  | _ => ret false
  end.

End Mixin.
End Qdrant.

(* ================================================================= *)
(** ** Elasticsearch storage: [elastic/seqlike.py], [elastic/backend.py] *)

Module Elastic.
Import Py Eff.
Local Open Scope py_scope.

Section Mixin.
Context {Blob : Type} {ser : Serializer Blob}.

(** [backend.py:188]: the embedding as a list of floats; random when
    the document has none, so it is a parameter here. *)
Variable _map_embedding : option (list Q) -> list Q.

(** One action of a bulk request: [_op_type] is always ["index"] and
    [_index] is [self._config.index_name]. *)
Record action := mkAction {
  _id : string;
  act_embedding : list Q;
  blob : Blob
}.

(** The documents index of the server, keyed by [_id], and the
    Offset2ID table [self._offset2ids]. *)
Record Store := mkStore {
  index : gmap string (list Q * Blob);
  offset2ids : list string
}.

(** [self._offset2ids.append(i)] *)
Definition offset2ids_append (i : string) : M Store unit :=
  fun st => (inl tt, mkStore (index st) (offset2ids st ++ [i])).

(** [bulk(self._client, request)], [backend.py:135]: an [index]
    action stores its document under [_id], replacing what was
    there. *)
Definition _send_requests (request : list action) : M Store unit :=
  fun st =>
    (inl tt,
     mkStore (foldl (fun m a => <[_id a := (act_embedding a, blob a)]> m)
                    (index st) request)
             (offset2ids st)).

(** [self._client.indices.refresh]: makes what was indexed visible;
    the index above is always up to date. *)
Definition _refresh : M Store unit := ret tt.

(** [__len__]: the [count] of the documents index. *)
Definition __len__ (st : Store) : nat := size (index st).

(** [_doc_id_exists], [backend.py:141] *)
Definition _doc_id_exists (st : Store) (doc_id : string) : bool :=
  bool_decide (is_Some (index st !! doc_id)).

(** The loop of [extend]; [request] is the list built so far. *)
Fixpoint extend_loop (values : list Document) (request : list action)
  : M Store (list action) :=
  match values with
  | [] => ret request
  | value :: rest =>
      let value := mkDocument (id value) (text value)
                              (Some (_map_embedding (embedding value)))
                              (tensor value) (tags value) in
      let request :=
        request ++ [mkAction (id value)
                             (default [] (embedding value))
                             (to_base64 value)] in
      offset2ids_append (id value) ;;
      extend_loop rest request
  end.

Definition extend (values : list Document) : M Store unit :=
  request <- extend_loop values [] ;;
  if (0 <? length request)%nat then
    _send_requests request ;; _refresh
  else ret tt.

(** The action [extend] builds for a document. *)
Definition action_of (value : Document) : action :=
  mkAction (id value) (_map_embedding (embedding value))
           (to_base64 (mkDocument (id value) (text value)
                                  (Some (_map_embedding (embedding value)))
                                  (tensor value) (tags value))).

(** What one [index] action does to the documents index. *)
Definition put (m : gmap string (list Q * Blob)) (a : action)
  : gmap string (list Q * Blob) :=
  <[_id a := (act_embedding a, blob a)]> m.

(** Invariants (1) and (2) of the Offset2ID table. *)
Definition table_ok (st : Store) : Prop :=
  length (offset2ids st) = __len__ st /\ NoDup (offset2ids st).

End Mixin.
End Elastic.

(* ================================================================= *)
(** ** Sample collections *)

Module Samples.
Import Py Eff.

Definition doc (i t : string) : Document := mkDocument i t None None [].

(** Five documents [d0..d4]. *)
Definition da5 : Memory.Store :=
  [doc "d0" EmptyString; doc "d1" EmptyString; doc "d2" EmptyString; doc "d3" EmptyString; doc "d4" EmptyString].

Definition mask5 : value :=
  VList [VBool true; VBool false; VBool true; VBool false; VBool true].

Definition val3 : value :=
  VList [VDoc (doc "d0" "new"); VDoc (doc "d2" "new"); VDoc (doc "d4" "new")].

(** Two documents ["a"] and ["b"]; offset 0 holds ["a"]. *)
Definition da_ab : Memory.Store := [doc "a" EmptyString; doc "b" EmptyString].

Definition val2 : value := VList [VDoc (doc "a" "x"); VDoc (doc "b" "x")].

(** [np.array([[0, -1]])] and [np.array([[0, 1], [2, 3]])] *)
Definition row_array : ndarray := mkNdarray [1%nat; 2%nat] (NdInt [0; -1]).
Definition square_array : ndarray := mkNdarray [2%nat; 2%nat] (NdInt [0; 1; 2; 3]).

(** A serializer that keeps the document as its own blob. *)
Definition plain : Serializer Document :=
  {| to_base64 := fun d => d; from_base64 := fun d => d |}.

(** A Redis environment with the configuration as [RedisConfig]
    declares it; [_add] stores the payload as a hash. *)
Definition redis_env : Redis.Env Document :=
  {| Redis.key_prefix := None;
     Redis.columns := [];
     Redis.tag_indices := [];
     Redis._map_embedding := fun _ => VNone;
     Redis.blob_value := VDoc;
     Redis._add := fun key payload c =>
       (inl tt, Redis.mkClient (<[key := Redis.RHash payload]> (Redis.db c))
                               (Redis.issued c)) |}.

(** The same with a [key_prefix] put on the configuration object. *)
Definition redis_env_prefixed : Redis.Env Document :=
  {| Redis.key_prefix := Some "doc:";
     Redis.columns := [];
     Redis.tag_indices := [];
     Redis._map_embedding := fun _ => VNone;
     Redis.blob_value := VDoc;
     Redis._add := Redis._add (Env := redis_env) |}.

Definition redis_empty : Redis.Client := Redis.mkClient ∅ [].

(** An Elasticsearch index that holds nothing yet. *)
Definition elastic_empty : Elastic.Store (Blob := Document) :=
  Elastic.mkStore ∅ [].

Definition zero_embedding (e : option (list Q)) : list Q := default [] e.

End Samples.

(* ================================================================= *)
(** ** Qdrant storage, continued: [_upload_batch] and [scan] *)

Module QdrantScan.
Import Py Eff Qdrant.
Local Open Scope py_scope.

Section Mixin.
Context {Blob : Type} {ser : Serializer Blob}.

(** [QdrantStorageHelper.embedding_to_array], as in [Qdrant]. *)
Variable embedding_to_array : option (list Q) -> list Q.

(** [self.scroll_batch_size] *)
Variable scroll_batch_size : nat.

(** [getsetdel.py:34] *)
Definition _upload_batch (docs : list Document) : M (gmap string (@Point Blob)) unit :=
  upsert_points (map (_document_to_qdrant embedding_to_array) docs).

(** [points_api.scroll_points(scroll_request=ScrollRequest(offset,
    limit, ...))] of the client, which is not among the sources: the
    points of one page, each with its identifier, and
    [next_page_offset]. *)
Variable scroll_points :
  option string -> nat -> gmap string (@Point Blob)
  -> list (string * @Point Blob) * option string.

(** [for point in response.result.points: yield
    self._qdrant_to_document(point.json())]: the documents yielded,
    and the exception that ends the generator, if one is raised. *)
Fixpoint yield_points (points : list (string * @Point Blob))
  : list value * option exn :=
  match points with
  | [] => ([], None)
  | point :: points' =>
      match _qdrant_to_document (json point.2) with
      | inr e => ([], Some e)
      | inl doc =>
          let '(yielded, e) := yield_points points' in (doc :: yielded, e)
      end
  end.

(** The loop of [scan]: what the generator yields until it is
    exhausted or raises, and the exception if it raises; [None] when
    [fuel] rounds do not end it. *)
Fixpoint scan_loop (fuel : nat) (offset : option string) (c : gmap string (@Point Blob))
  : option (list value * option exn) :=
  match fuel with
  | O => None
  | S fuel' =>
      let response := scroll_points offset scroll_batch_size c in
      match yield_points response.1 with
      | (yielded, Some e) => Some (yielded, Some e)
      | (yielded, None) =>
          match response.2 with
          | Some next_page_offset =>
              if truthy (VStr next_page_offset)
              then (fun later => (yielded ++ later.1, later.2))
                     <$> scan_loop fuel' (Some next_page_offset) c
              else Some (yielded, None)
          | None => Some (yielded, None)
          end
      end
  end.

(** [list(self.scan())] *)
Definition scan (fuel : nat) (c : gmap string (@Point Blob))
  : option (list value * option exn) :=
  scan_loop fuel None c.

End Mixin.
End QdrantScan.

(* ================================================================= *)
(** ** Redis storage, continued: the Offset2ID table and the schema *)

Module RedisBackend.
Import Py Eff.
Local Open Scope py_scope.

(** The object as [_load_offset2ids] and [_save_offset2ids] see it: the
    keyspace behind [self._client] and the table [self._offset2ids]
    (an [Offset2ID] is the list of its [ids]). *)
Record Self := mkSelf {
  _client : gmap string Redis.rvalue;
  _offset2ids : list string
}.

(** [backend.py:68] *)
Definition _offset2id_key : string := "offset2id".

(** [self._client.exists(key)] *)
Definition client_exists (key : string) : M Self bool :=
  fun s => (inl (bool_decide (is_Some (_client s !! key))), s).

(** [self._client.delete(key)] *)
Definition client_delete (key : string) : M Self unit :=
  fun s => (inl tt, mkSelf (delete key (_client s)) (_offset2ids s)).

(** [self._client.rpush(key, *values)]: appends to the list under
    [key], which is created when the key is missing. *)
Definition client_rpush (key : string) (values : list string) : M Self unit :=
  fun s =>
    match _client s !! key with
    | None => (inl tt, mkSelf (<[key := Redis.RList values]> (_client s)) (_offset2ids s))
    | Some (Redis.RList l) =>
        (inl tt, mkSelf (<[key := Redis.RList (l ++ values)]> (_client s)) (_offset2ids s))
    | Some _ => (inr (ResponseError "WRONGTYPE"), s)
    end.

(** [self._client.lrange(key, 0, -1)]: the whole list under [key], as
    the byte strings the server holds ([str] and [bytes] are not told
    apart here). *)
Definition client_lrange_all (key : string) : M Self (list string) :=
  fun s =>
    match _client s !! key with
    | None => (inl [], s)
    | Some (Redis.RList l) => (inl l, s)
    | Some _ => (inr (ResponseError "WRONGTYPE"), s)
    end.

(** [backend.py:156] *)
Definition _get_offset2ids_meta : M Self (list string) :=
  found <- client_exists _offset2id_key ;;
  if negb found then ret []
  else client_lrange_all _offset2id_key.

(** [backend.py:161] *)
Definition _update_offset2ids_meta : M Self unit :=
  found <- client_exists _offset2id_key ;;
  (if (found : bool) then client_delete _offset2id_key else ret tt) ;;
  ids <- get _offset2ids ;;
  if (0 <? length ids)%nat then client_rpush _offset2id_key ids
  else ret tt.

(** [getsetdel.py:71] *)
Definition _load_offset2ids : M Self unit :=
  ids <- _get_offset2ids_meta ;;
  fun s => (inl tt, mkSelf (_client s) ids).

(** [getsetdel.py:75] *)
Definition _save_offset2ids : M Self unit :=
  _update_offset2ids_meta.

(** The fields of [RedisConfig] that the schema is built from. *)
Record RedisConfig := mkRedisConfig {
  n_dim : Z;
  distance : string;
  index_text : bool;
  tag_indices : list string;
  method : string;
  initial_cap : option Z;
  ef_construction : option Z;
  m : option Z;
  ef_runtime : option Z;
  block_size : option Z;
  columns : list (string * string)
}.

(** A field of the search schema. *)
Inductive field (Column : Type) :=
| VectorField (name algorithm : string) (attributes : gmap string value)
| TextField (name : string)
| ColumnField (c : Column).
Arguments VectorField {Column}.
Arguments TextField {Column}.
Arguments ColumnField {Column}.

(** [bool(x)] of an [Optional[int]] *)
Definition is_set (x : option Z) : bool :=
  match x with Some z => negb (Z.eqb z 0) | None => false end.

(** [x or d] of an [Optional[int]] *)
Definition or_else (x : option Z) (d : Z) : Z :=
  if is_set x then default d x else d.

Section Schema.
Context {Column : Type}.

(** [self._map_column], of the base backend, which is not among the
    sources. *)
Variable _map_column : string -> string -> Column.

(** [backend.py:103] *)
Definition index_param_of (config : RedisConfig) : gmap string value :=
  let index_param : gmap string value :=
    <["DISTANCE_METRIC" := VStr (distance config)]>
      (<["DIM" := VInt (n_dim config)]> (<["TYPE" := VStr "FLOAT32"]> ∅)) in
  let index_param :=
    if String.eqb (method config) "HNSW"
       && (is_set (m config) || is_set (ef_construction config)
           || is_set (ef_runtime config))
    then
      let index_options : gmap string value :=
        <["EF_RUNTIME" := VInt (or_else (ef_runtime config) 10)]>
          (<["EF_CONSTRUCTION" := VInt (or_else (ef_construction config) 200)]>
             (<["M" := VInt (or_else (m config) 16)]> ∅)) in
      index_options ∪ index_param
    else index_param in
  let index_param :=
    if String.eqb (method config) "FLAT" && is_set (block_size config)
    then <["BLOCK_SIZE" := VInt (default 0 (block_size config))]> index_param
    else index_param in
  if is_set (initial_cap config)
  then <["INITIAL_CAP" := VInt (default 0 (initial_cap config))]> index_param
  else index_param.

Definition _build_schema_from_redis_config (config : RedisConfig)
  : list (field Column) :=
  let schema := [VectorField "embedding" (method config) (index_param_of config)] in
  let schema := schema ++ map TextField (tag_indices config) in
  let schema :=
    schema ++ map (fun '(col, coltype) => ColumnField (_map_column col coltype))
                  (columns config) in
  if index_text config then schema ++ [TextField "text"] else schema.

End Schema.
End RedisBackend.

(* ================================================================= *)
(** ** Elasticsearch storage, continued: [elastic/backend.py] *)

Module ElasticBackend.
Import Py.

Section Sanitize.

(** [c.isalnum()] *)
Variable isalnum : ascii -> bool.

(** [c.isalnum() or c == '_'] *)
Definition legal (c : ascii) : bool := isalnum c || Ascii.eqb c "_"%char.

(** [''.join(c for c in table_name if c.isalnum() or c == '_')] *)
Fixpoint keep_legal (table_name : string) : string :=
  match table_name with
  | EmptyString => EmptyString
  | String c rest =>
      if legal c then String c (keep_legal rest) else keep_legal rest
  end.

(** Every character of [s] satisfies [P]. *)
Fixpoint all_chars (P : ascii -> bool) (s : string) : bool :=
  match s with
  | EmptyString => true
  | String c rest => P c && all_chars P rest
  end.

(** [backend.py:35]: the sanitized name, and the name shown in the
    warning when one is issued. *)
Definition _sanitize_table_name (table_name : string) : string * option string :=
  let ret := keep_legal table_name in
  (ret, if negb (String.eqb ret table_name) then Some ret else None).

End Sanitize.

(** What the calls on the Offset2ID index raise. *)
Inductive es_exn :=
| NoClient           (* ValueError('Elastic client does not exist') *)
| NoneHasNoIndices   (* AttributeError: [self._client] is [None] *)
| NotFoundError      (* the index does not exist *)
| NoSource (offset : nat) (* KeyError('_source'): no document under the offset *).

(** The server behind [self._client]: the index named
    [self._index_name_offset2id], when it exists, holds one document
    per offset, whose [blob] is the identifier.  Reads see what was
    written. *)
Record Server := mkServer {
  offset2id_index : option (gmap nat string)
}.

Record Self := mkSelf {
  _client : option Server;
  _offset2ids : list string
}.

Definition R (A : Type) : Type := Self -> (A + es_exn) * Self.

(** [backend.py:91]: [indices.delete(..., ignore=[404])], then
    [indices.create]. *)
Definition _build_offset2id_index : R unit :=
  fun s =>
    match _client s with
    | None => (inr NoneHasNoIndices, s)
    | Some _ => (inl tt, mkSelf (Some (mkServer (Some ∅))) (_offset2ids s))
    end.

(** [enumerate(ids)] *)
Definition enumerate {A} (l : list A) : list (nat * A) :=
  zip (seq 0 (length l)) l.

(** [bulk(self._client, requests)] of [index] actions on the Offset2ID
    index. *)
Definition bulk_offsets (requests : list (nat * string)) (ix : gmap nat string)
  : gmap nat string :=
  foldl (fun acc '(offset_, id_) => <[offset_ := id_]> acc) ix requests.

(** [backend.py:155] *)
Definition _update_offset2ids_meta : R unit :=
  fun s =>
    match _client s with
    | None => (inr NoneHasNoIndices, s)
    | Some server =>
        match offset2id_index server with
        | Some ix =>
            let requests := enumerate (_offset2ids s) in
            (inl tt,
             mkSelf (Some (mkServer (Some (bulk_offsets requests ix))))
                    (_offset2ids s))
        | None => (inl tt, s)
        end
    end.

(** [[x['_source']['blob'] for x in resp['docs']]] over the answer of
    [mget(ids=offsets)]. *)
Fixpoint blobs (ix : gmap nat string) (offsets : list nat) : list string + es_exn :=
  match offsets with
  | [] => inl []
  | x :: rest =>
      match ix !! x with
      | None => inr (NoSource x)
      | Some blob =>
          match blobs ix rest with
          | inl ids => inl (blob :: ids)
          | inr e => inr e
          end
      end
  end.

(** [backend.py:169] *)
Definition _get_offset2ids_meta : R (list string) :=
  fun s =>
    match _client s with
    | None => (inr NoClient, s)
    | Some server =>
        match offset2id_index server with
        | None => (inr NotFoundError, s)
        | Some ix =>
            let n_docs := size ix in
            if negb (Nat.eqb n_docs 0) then
              let offsets := seq 0 n_docs in
              (blobs ix offsets, s)
            else (inl [], s)
        end
    end.

End ElasticBackend.

(* ================================================================= *)
(** ** More samples *)

Module MoreSamples.
Import Py Eff Samples.

(** ASCII letters and digits. *)
Definition ascii_isalnum (c : ascii) : bool :=
  let n := nat_of_ascii c in
  ((48 <=? n) && (n <=? 57) || (65 <=? n) && (n <=? 90)
   || (97 <=? n) && (n <=? 122))%nat.

(** A Qdrant collection that holds the documents ["a"] and ["b"]. *)
Definition qdrant_ab : gmap string (Qdrant.Point (Blob := Document)) :=
  <["a" := Qdrant.mkPoint (doc "a" EmptyString) []]>
    (<["b" := Qdrant.mkPoint (doc "b" EmptyString) []]> ∅).

(** A server that answers a scroll with all the points in one page. *)
Definition scroll_one_page (offset : option string) (limit : nat)
           (c : gmap string (Qdrant.Point (Blob := Document)))
  : list (string * Qdrant.Point (Blob := Document)) * option string :=
  (map_to_list c, None).

(** A Redis environment with a column named ['blob'], and a document
    with a tag of that name. *)
Definition redis_env_blob_column : Redis.Env Document :=
  {| Redis.key_prefix := None;
     Redis.columns := [("blob", "str")];
     Redis.tag_indices := [];
     Redis._map_embedding := fun _ => VNone;
     Redis.blob_value := VDoc;
     Redis._add := Redis._add (Env := redis_env) |}.

Definition tagged_doc : Document :=
  mkDocument "a" "hello" None None [("blob", "tagged")].

(** A Redis object whose server holds a table of three identifiers. *)
Definition redis_self : RedisBackend.Self :=
  RedisBackend.mkSelf (<["offset2id" := Redis.RList ["x"; "y"; "z"]]> ∅) ["a"; "b"].

(** An Elasticsearch object whose Offset2ID index holds three
    identifiers while the table holds two. *)
Definition elastic_self : ElasticBackend.Self :=
  ElasticBackend.mkSelf
    (Some (ElasticBackend.mkServer (Some (map_seq 0 ["x"; "y"; "z"]))))
    ["a"; "b"].

End MoreSamples.

(* ================================================================= *)
(** * Properties *)

(** ** The resolver [__setitem__] *)

Module SetItemFacts.
Import Py Eff SetItem.
Local Open Scope py_scope.

Section Facts.
Context {Store : Type} {self : Backend Store}.

Lemma for_each_ext {A} (l : list A) (f g : A -> M Store unit) (st : Store) :
  (forall x st', x ∈ l -> f x st' = g x st') ->
  for_each l f st = for_each l g st.
Proof.
  revert st. induction l as [|x l IH]; intros st Hfg; [reflexivity|].
  simpl. unfold bind. rewrite (Hfg x st) by left.
  destruct (g x st) as [[[]|e] st']; [|reflexivity].
  apply IH. intros y st'' Hy. apply Hfg. by right.
Qed.

Lemma depth_items_lt (l : list value) (x : value) :
  x ∈ l -> (depth x < S (foldr (fun x n => Nat.max (depth x) n) 0%nat l))%nat.
Proof.
  induction 1 as [x l|x y l _ IH]; simpl; lia.
Qed.

Lemma depth_tolist (a : ndarray) : depth (tolist a) = 1%nat.
Proof.
  unfold tolist. simpl. f_equal.
  induction (buffer_scalars (buffer a)) as [|x l IH]; [reflexivity|].
  simpl. rewrite IH. by destruct x.
Qed.

(** The body calls [self_set] on the elements of the index only, or on
    the list an array index converts to. *)
Lemma setitem_body_ext (self1 self2 : value -> value -> M Store unit)
      (index value : value) (st : Store) :
  (forall i v st', (depth i < depth index)%nat -> self1 i v st' = self2 i v st') ->
  setitem_body self1 index value st = setitem_body self2 index value st.
Proof.
  intros Hself. unfold setitem_body.
  destruct index as [| | | | | | | l | l | | a | |ds]; try reflexivity.
  - (* list *)
    cbn [is_int is_np_generic is_bool is_str is_slice is_ellipsis is_sequence
         is_tuple orb andb negb].
    change (seq_items (VList l)) with l.
    unfold bind, lift.
    destruct (first (VList l)) as [i0|e]; [|reflexivity].
    destruct (is_bool i0); [reflexivity|].
    destruct (is_int i0 || is_str i0); [|reflexivity].
    destruct (is_str value || negb (is_sequence value)).
    + apply for_each_ext. intros x st' Hx. apply Hself.
      by apply depth_items_lt.
    + apply for_each_ext. intros [si v] st' Hx. apply Hself.
      apply depth_items_lt. unfold zip in Hx.
      apply list_elem_of_In in Hx. apply in_combine_l in Hx.
      by apply list_elem_of_In.
  - (* tuple *)
    cbn [is_int is_np_generic is_bool is_str is_slice is_ellipsis is_sequence
         is_tuple orb andb negb].
    change (seq_items (VTuple l)) with l.
    destruct (Nat.eqb (length l) 2); [reflexivity|].
    unfold bind, lift.
    destruct (first (VTuple l)) as [i0|e]; [|reflexivity].
    destruct (is_bool i0); [reflexivity|].
    destruct (is_int i0 || is_str i0); [|reflexivity].
    destruct (is_str value || negb (is_sequence value)).
    + apply for_each_ext. intros x st' Hx. apply Hself.
      by apply depth_items_lt.
    + apply for_each_ext. intros [si v] st' Hx. apply Hself.
      apply depth_items_lt. unfold zip in Hx.
      apply list_elem_of_In in Hx. apply in_combine_l in Hx.
      by apply list_elem_of_In.
  - (* ndarray *)
    simpl. destruct (Nat.eqb (ndim (squeeze a)) 1); [|reflexivity].
    apply Hself. rewrite depth_tolist. simpl. lia.
  - (* DocumentArray *)
    simpl. unfold bind, lift. destruct ds as [|d ds]; reflexivity.
Qed.

Lemma setitem_rec_fuel (n m : nat) (index value : value) (st : Store) :
  (depth index < n)%nat -> (depth index < m)%nat ->
  setitem_rec n index value st = setitem_rec m index value st.
Proof.
  revert m index value st.
  induction n as [|n IH]; intros m index value st Hn Hm; [lia|].
  destruct m as [|m]; [lia|]. simpl.
  apply setitem_body_ext. intros i v st' Hi. apply IH; lia.
Qed.

(** [__setitem__] satisfies the recursive equation of the source:
    the re-entrant calls are calls of [__setitem__] itself. *)
Lemma setitem_unfold (index value : value) (st : Store) :
  __setitem__ index value st = setitem_body __setitem__ index value st.
Proof.
  unfold __setitem__ at 1. simpl.
  apply setitem_body_ext. intros i v st' Hi.
  unfold __setitem__. apply setitem_rec_fuel; lia.
Qed.

(** *** The boolean-mask rule *)

(** The resolver hands [_set_by_mask] the first element of the index,
    a [bool], and [len] of it raises: nothing is selected or set. *)
Lemma setitem_mask_list (b : bool) (rest : list value) (value : value) (st : Store) :
  __setitem__ (VList (VBool b :: rest)) value st = (inr (NoLen "bool"), st).
Proof. rewrite setitem_unfold. reflexivity. Qed.

(** [_set_by_mask] itself, given the mask, selects by [compress]. *)
Lemma _set_by_mask_same_length (mask : list value) (value : value) (st : Store) :
  length mask = len st ->
  _set_by_mask (VList mask) value st
  = _set_doc_value_pairs (compress (iter_docs st) mask) value st.
Proof.
  intros Hlen. unfold _set_by_mask, bind, lift, get. simpl.
  rewrite Hlen, Nat.eqb_refl. reflexivity.
Qed.

(** [_set_by_mask] itself, given a mask of another length, raises the
    [IndexError] that names both lengths, and sets nothing. *)
Lemma _set_by_mask_length_mismatch (mask : list value) (value : value) (st : Store) :
  length mask ≠ len st ->
  _set_by_mask (VList mask) value st
  = (inr (MaskLengthMismatch (len st) (length mask)), st).
Proof.
  intros Hlen. unfold _set_by_mask, bind, lift, get. simpl.
  destruct (Nat.eqb_spec (length mask) (len st)) as [E|E]; [done|reflexivity].
Qed.

(** An empty list has no first element to classify: [index[0]] raises
    before [_set_by_mask] is reached. *)
Lemma setitem_empty_list (value : value) (st : Store) :
  __setitem__ (VList []) value st = (inr SequenceIndexOutOfRange, st).
Proof. rewrite setitem_unfold. reflexivity. Qed.

(** *** Indices no rule takes *)

(** What is neither a number, a string, a slice, the ellipsis, a
    sequence nor an array is refused, and the index is named. *)
Lemma setitem_unsupported (index value : value) (st : Store) :
  (is_int index || is_np_generic index) && negb (is_bool index) = false ->
  is_str index = false -> is_slice index = false ->
  is_ellipsis index = false -> is_sequence index = false ->
  is_ndarray index = false ->
  __setitem__ index value st
  = (inr (UnsupportedIndexType (typename index) index), st).
Proof.
  intros H1 H2 H3 H4 H5 H6. rewrite setitem_unfold. unfold setitem_body.
  rewrite H1, H2, H3, H4, H5, H6. reflexivity.
Qed.

(** A sequence that is not a pair and whose first element is neither
    a boolean, an integer nor a string falls through the inner
    [if/elif] chain, which has no [else]. *)
Lemma setitem_sequence_falls_through (index index_0 value : value) (st : Store) :
  is_sequence index = true -> is_str index = false ->
  is_tuple index && Nat.eqb (length (seq_items index)) 2 = false ->
  first index = inl index_0 ->
  is_bool index_0 = false -> is_int index_0 || is_str index_0 = false ->
  __setitem__ index value st = (inl tt, st).
Proof.
  intros Hseq Hstr Hpair H0 Hb Hi. rewrite setitem_unfold. unfold setitem_body.
  assert ((is_int index || is_np_generic index) && negb (is_bool index) = false) as ->
    by (by destruct index).
  assert (is_slice index = false) as -> by (by destruct index).
  assert (is_ellipsis index = false) as -> by (by destruct index).
  rewrite Hstr, Hseq, Hpair. unfold bind, lift. rewrite H0, Hb, Hi. reflexivity.
Qed.

(** *** Sequences of offsets or identifiers *)

Lemma setitem_offsets_or_ids (index value : value) (st : Store) :
  offsets_or_ids index = true ->
  __setitem__ index value st
  = (if single_value value
     then for_each (seq_items index) (fun si => __setitem__ si value)
     else for_each (zip (seq_items index) (seq_items value))
                   (fun '(si, _val) => __setitem__ si _val)) st.
Proof.
  unfold offsets_or_ids, single_value. intros Hrule.
  apply andb_prop in Hrule as [Hrule H0].
  apply andb_prop in Hrule as [Hrule Hpair].
  apply andb_prop in Hrule as [Hseq Hstr].
  apply negb_true_iff in Hstr, Hpair.
  rewrite setitem_unfold. unfold setitem_body.
  assert ((is_int index || is_np_generic index) && negb (is_bool index) = false) as ->
    by (by destruct index).
  assert (is_slice index = false) as -> by (by destruct index).
  assert (is_ellipsis index = false) as -> by (by destruct index).
  rewrite Hstr, Hseq, Hpair. unfold bind, lift, first, seq_items in *.
  destruct (items index) as [[|index_0 l]|]; simpl in H0; try discriminate.
  apply andb_prop in H0 as [Hb Hi]. apply negb_true_iff in Hb.
  rewrite Hb, Hi. reflexivity.
Qed.

(** On an offset or an identifier the resolver is the primitive of
    the backend. *)
Lemma setitem_offset_or_id (si value : value) (st : Store) :
  offset_or_id si = true ->
  __setitem__ si value st = set_element si value st.
Proof.
  intros Hsi. rewrite setitem_unfold.
  destruct si as [| | | |s| | | | | | | |]; try discriminate Hsi; [reflexivity|].
  unfold setitem_body. simpl in *.
  apply negb_true_iff in Hsi. rewrite Hsi. reflexivity.
Qed.

Lemma for_each_elements (l : list value) (value : value) (st : Store) :
  forallb offset_or_id l = true ->
  for_each l (fun si => __setitem__ si value) st
  = for_each l (fun si => set_element si value) st.
Proof.
  intros Hall. apply for_each_ext. intros si st' Hsi.
  apply setitem_offset_or_id.
  rewrite forallb_forall in Hall. apply Hall. by apply list_elem_of_In.
Qed.

Lemma for_each_zipped_elements (l values : list value) (st : Store) :
  forallb offset_or_id l = true ->
  for_each (zip l values) (fun '(si, _val) => __setitem__ si _val) st
  = for_each (zip l values) (fun '(si, _val) => set_element si _val) st.
Proof.
  intros Hall. apply for_each_ext. intros [si _val] st' Hsi.
  apply setitem_offset_or_id.
  rewrite forallb_forall in Hall. apply Hall.
  apply list_elem_of_In in Hsi. by apply in_combine_l in Hsi.
Qed.

(** A single value set through a list of offsets is set at each
    offset in turn. *)
Lemma setitem_offsets_single (z : Z) (zs : list Z) (value : value) (st : Store) :
  single_value value = true ->
  __setitem__ (VList (map VInt (z :: zs))) value st
  = for_each (z :: zs) (fun k => _set_doc_by_offset k value) st.
Proof.
  intros Hsingle. rewrite setitem_offsets_or_ids by reflexivity.
  rewrite Hsingle. change (seq_items (VList (map VInt (z :: zs)))) with (map VInt (z :: zs)).
  generalize (z :: zs). clear z zs. intros zs. revert st.
  induction zs as [|k zs IH]; intros st; [reflexivity|].
  simpl. unfold bind. rewrite setitem_unfold.
  change (setitem_body __setitem__ (VInt k) value st) with (_set_doc_by_offset k value st).
  destruct (_set_doc_by_offset k value st) as [[[]|e] st']; [apply IH|reflexivity].
Qed.

(** Values set through a list of offsets are set pairwise, as far as
    the shorter of the two goes. *)
Lemma setitem_offsets_zipped (z : Z) (zs : list Z) (values : list value) (st : Store) :
  __setitem__ (VList (map VInt (z :: zs))) (VList values) st
  = for_each (zip (z :: zs) values) (fun '(k, v) => _set_doc_by_offset k v) st.
Proof.
  rewrite setitem_offsets_or_ids by reflexivity.
  change (single_value (VList values)) with false. cbv iota.
  change (seq_items (VList values)) with values.
  change (seq_items (VList (map VInt (z :: zs)))) with (map VInt (z :: zs)).
  generalize (z :: zs). clear z zs. intros zs. revert values st.
  induction zs as [|k zs IH]; intros [|v values] st; try reflexivity.
  simpl. unfold bind. rewrite setitem_unfold.
  change (setitem_body __setitem__ (VInt k) v st) with (_set_doc_by_offset k v st).
  destruct (_set_doc_by_offset k v st) as [[[]|e] st']; [apply IH|reflexivity].
Qed.

(** *** Array indices *)

Lemma setitem_ndarray (a : ndarray) (value : value) (st : Store) :
  __setitem__ (VNdarray a) value st
  = if Nat.eqb (ndim (squeeze a)) 1
    then __setitem__ (tolist (squeeze a)) value st
    else (inr (NdimNotOne (ndim (squeeze a))), st).
Proof.
  rewrite setitem_unfold. unfold setitem_body. simpl.
  destruct (Nat.eqb (ndim (squeeze a)) 1); reflexivity.
Qed.

(** [tolist] holds Python-native scalars only. *)
Lemma tolist_native (a : ndarray) :
  exists l, tolist a = VList l /\ forallb native l = true.
Proof.
  exists (map np_native (buffer_scalars (buffer a))). split; [reflexivity|].
  induction (buffer_scalars (buffer a)) as [|x l IH]; [reflexivity|].
  simpl. rewrite IH. by destruct x.
Qed.

(** *** Paired indices *)

Lemma setitem_pair (idx1 idx2 value : value) (st : Store) :
  __setitem__ (VTuple [idx1; idx2]) value st = _set_by_pair idx1 idx2 value st.
Proof. rewrite setitem_unfold. reflexivity. Qed.

Lemma all_hasattr_found (idx1 d : value) (attrs : list value) (st : Store) :
  getitem st idx1 = inl d ->
  all_hasattr idx1 attrs st
  = (inl (forallb (fun attr => hasattr d (str_of attr)) attrs), st).
Proof.
  intros Hd. induction attrs as [|attr rest IH]; [reflexivity|].
  simpl. unfold bind, read. rewrite Hd.
  destruct (hasattr d (str_of attr)); [apply IH|reflexivity].
Qed.

(** First a string, second a known identifier: dual selection,
    whatever attributes the first document has. *)
Lemma _set_by_pair_known_id (s1 s2 : string) (value : value) (st : Store) :
  contains st (VStr s2) = true ->
  _set_by_pair (VStr s1) (VStr s2) value st
  = dual_selection (VStr s1) (VStr s2) value st.
Proof.
  intros Hin. unfold _set_by_pair, dual_selection. simpl.
  unfold bind at 1. unfold get at 1. rewrite Hin. reflexivity.
Qed.

(** First an integer, second an integer: dual selection. *)
Lemma _set_by_pair_offsets (idx1 idx2 value : value) (st : Store) :
  is_int idx1 = true -> is_int idx2 = true ->
  _set_by_pair idx1 idx2 value st = dual_selection idx1 idx2 value st.
Proof.
  intros H1 H2. unfold _set_by_pair, dual_selection.
  assert (is_str idx1 = false) as -> by (by destruct idx1).
  rewrite H1, H2. reflexivity.
Qed.

(** First an integer, second a string: the string is looked up among
    the attributes of the document only; [contains] is not asked. *)
Lemma _set_by_pair_offset_str (idx1 d : value) (s : string) (value : value)
      (st : Store) :
  is_int idx1 = true ->
  getitem st idx1 = inl d ->
  hasattr d s = false ->
  forallb (fun attr => hasattr d (str_of attr)) (map VStr (chars s)) = false ->
  _set_by_pair idx1 (VStr s) value st = (inr (NotAttributeOrList (VStr s)), st).
Proof.
  intros H1 Hd Hattr Hall. unfold _set_by_pair.
  assert (is_str idx1 = false) as -> by (by destruct idx1).
  rewrite H1. simpl.
  unfold bind at 1. unfold is_attribute. simpl.
  unfold bind at 1. unfold read at 1. rewrite Hd. unfold ret at 1.
  rewrite Hattr.
  unfold bind at 1. unfold is_attribute_list. simpl.
  assert (forallb is_str (seq_items (VStr s)) = true) as ->.
  { unfold seq_items. simpl. clear Hall.
    induction (chars s) as [|c l IH]; [reflexivity|exact IH]. }
  unfold seq_items. simpl.
  rewrite (all_hasattr_found _ d) by done. rewrite Hall. reflexivity.
Qed.

Lemma _set_by_pair_many (idx1 idx2 value : value) (st : Store) :
  selects_many idx1 = true ->
  _set_by_pair idx1 idx2 value st = _set_docs_attributes idx1 idx2 value st.
Proof.
  unfold selects_many. intros Hmany.
  apply andb_prop in Hmany as [Hmany Hsel].
  apply andb_prop in Hmany as [Hstr Hint].
  apply negb_true_iff in Hstr, Hint.
  unfold _set_by_pair. rewrite Hstr, Hint, Hsel. reflexivity.
Qed.

Lemma _set_docs_attributes_nothing_selected
      (index attributes value _docs : value) (st : Store) :
  getitem st index = inl _docs ->
  truthy _docs = false ->
  _set_docs_attributes index attributes value st = (inl tt, st).
Proof.
  intros Hget Hempty. unfold _set_docs_attributes, bind, read.
  rewrite Hget, Hempty. reflexivity.
Qed.

End Facts.
End SetItemFacts.

(** ** The claims about the resolver *)

Module SetItemClaims.
Import Py Eff SetItem SetItemFacts Memory Samples.
Local Open Scope py_scope.

Section AnyBackend.
Context {Store : Type} {self : Backend Store}.

(** C3.  The classification is not total on sequences: an index that
    is no sequence and matches none of the rules is refused with the
    [IndexError] that names its type and the collection is unchanged,
    but a list whose first element is a float (neither a boolean, an
    integer nor a string) is accepted silently: [__setitem__] returns
    without raising and without setting anything. *)
Theorem sequence_with_float_is_ignored (x : pyfloat) (value : value) (st : Store) :
  __setitem__ (VFloat x) value st
  = (inr (UnsupportedIndexType "builtins.float" (VFloat x)), st)
  /\ class_of (UnsupportedIndexType "builtins.float" (VFloat x)) = IndexErrorC
  /\ __setitem__ (VList [VFloat x]) value st = (inl tt, st).
Proof.
  split; [|split].
  - by apply setitem_unsupported.
  - reflexivity.
  - by apply (setitem_sequence_falls_through _ (VFloat x)).
Qed.

(** C7.  A set through a sequence of offsets or identifiers (a
    sequence that is not a pair and starts with an integer or a
    string): a single value is assigned to every element of the
    index, each through [__setitem__] itself, so that when the
    elements are offsets and identifiers the set is the run, in the
    order of the index and up to the first that raises, of the offset
    primitive or the identifier primitive of the backend on each
    element with that same value; a sequence value is zipped with the
    index and each pair is applied through [__setitem__] itself, so
    that on offsets and identifiers the set is the run of the
    primitive of each element with the value at its position.  The
    value is an object of its own, not the collection that is being
    set. *)
Theorem set_through_offsets_or_ids (index value : value) (st : Store) :
  offsets_or_ids index = true ->
  (single_value value = true ->
   __setitem__ index value st
   = for_each (seq_items index) (fun si => __setitem__ si value) st
   /\ (forallb offset_or_id (seq_items index) = true ->
       __setitem__ index value st
       = for_each (seq_items index) (fun si => set_element si value) st))
  /\ (single_value value = false ->
      __setitem__ index value st
      = for_each (zip (seq_items index) (seq_items value))
                 (fun '(si, _val) => __setitem__ si _val) st
      /\ (forallb offset_or_id (seq_items index) = true ->
          __setitem__ index value st
          = for_each (zip (seq_items index) (seq_items value))
                     (fun '(si, _val) => set_element si _val) st)).
Proof.
  intros Hrule. rewrite (setitem_offsets_or_ids _ _ _ Hrule).
  split; intros ->; (split; [reflexivity|]); intros Hall.
  - by apply for_each_elements.
  - by apply for_each_zipped_elements.
Qed.

(** C8.  An array index that has one dimension once squeezed is
    converted by [tolist] to a list of Python-native scalars, and the
    set is the set through that list; an array that keeps more than
    one dimension is refused with the [IndexError] that names [ndim],
    and the collection is unchanged. *)
Theorem set_through_ndarray (a : ndarray) (value : value) (st : Store) :
  (ndim (squeeze a) = 1%nat ->
   __setitem__ (VNdarray a) value st = __setitem__ (tolist (squeeze a)) value st
   /\ exists l, tolist (squeeze a) = VList l /\ forallb native l = true)
  /\ ((1 < ndim (squeeze a))%nat ->
      __setitem__ (VNdarray a) value st
      = (inr (NdimNotOne (ndim (squeeze a))), st)
      /\ class_of (NdimNotOne (ndim (squeeze a))) = IndexErrorC).
Proof.
  rewrite setitem_ndarray. split.
  - intros ->. split; [reflexivity|apply tolist_native].
  - intros Hdim. split; [|reflexivity].
    destruct (Nat.eqb_spec (ndim (squeeze a)) 1); [lia|reflexivity].
Qed.

(** C9.  When the primary selector of a paired attribute set resolves
    to an empty selection, [_set_docs_attributes] returns without
    raising and leaves the store as it was, whatever the attribute
    names and the value are; so does the set [da[index, attributes] =
    value] that reaches it. *)
Theorem attribute_set_on_empty_selection
        (index attributes value _docs : value) (st : Store) :
  getitem st index = inl _docs ->
  truthy _docs = false ->
  _set_docs_attributes index attributes value st = (inl tt, st)
  /\ (selects_many index = true ->
      __setitem__ (VTuple [index; attributes]) value st = (inl tt, st)).
Proof.
  intros Hget Hempty. split.
  - by apply (_set_docs_attributes_nothing_selected _ _ _ _docs).
  - intros Hmany. rewrite setitem_pair, _set_by_pair_many by done.
    by apply (_set_docs_attributes_nothing_selected _ _ _ _docs).
Qed.

(** C2, amended.  A known identifier in second place makes the pair a
    dual selection, before any reading as an attribute name, when the
    first component is a string; with an integer first component the
    dual selection is taken for an integer second component, and a
    string second component is only looked up among the attribute
    names of the document at that offset: when it is none, nor made
    of attribute names, the set raises [ValueError] and the store is
    unchanged, known identifier or not. *)
Theorem paired_selector_precedence (value : value) (st : Store) :
  (forall s1 s2, contains st (VStr s2) = true ->
     __setitem__ (VTuple [VStr s1; VStr s2]) value st
     = dual_selection (VStr s1) (VStr s2) value st)
  /\ (forall z1 z2,
        __setitem__ (VTuple [VInt z1; VInt z2]) value st
        = dual_selection (VInt z1) (VInt z2) value st)
  /\ (forall z s d,
        getitem st (VInt z) = inl d ->
        hasattr d s = false ->
        forallb (fun attr => hasattr d (str_of attr)) (map VStr (chars s)) = false ->
        __setitem__ (VTuple [VInt z; VStr s]) value st
        = (inr (NotAttributeOrList (VStr s)), st)
        /\ class_of (NotAttributeOrList (VStr s)) = ValueErrorC).
Proof.
  split; [|split].
  - intros s1 s2 Hin. rewrite setitem_pair. by apply _set_by_pair_known_id.
  - intros z1 z2. rewrite setitem_pair. by apply _set_by_pair_offsets.
  - intros z s d Hd Hattr Hall. split; [|reflexivity].
    rewrite setitem_pair. by apply (_set_by_pair_offset_str _ d).
Qed.

End AnyBackend.

(** C1.  On five documents [d0..d4], [da[[True, False, True, False,
    True]] = val] raises [TypeError] and sets nothing: the resolver
    passes [index[0]] to [_set_by_mask].  [_set_by_mask] called on the
    mask itself sets offsets 0, 2 and 4 and keeps five documents. *)
Theorem mask_set_on_five_documents :
  __setitem__ mask5 val3 da5 = (inr (NoLen "bool"), da5)
  /\ class_of (NoLen "bool") = TypeErrorC
  /\ _set_by_mask mask5 val3 da5
     = (inl tt, [doc "d0" "new"; doc "d1" EmptyString; doc "d2" "new";
                 doc "d3" EmptyString; doc "d4" "new"]).
Proof.
  split; [apply setitem_mask_list|]. split; reflexivity.
Qed.

(** C4.  On five documents, [da[[True, False]] = val] raises
    [TypeError], not the [IndexError] that names both lengths; the
    collection is unchanged.  [_set_by_mask] called on the mask itself
    raises that [IndexError], with lengths 5 and 2.  The empty mask
    does not reach [_set_by_mask]: [index[0]] raises on it. *)
Theorem short_mask_on_five_documents :
  __setitem__ (VList [VBool true; VBool false]) val3 da5
  = (inr (NoLen "bool"), da5)
  /\ class_of (NoLen "bool") = TypeErrorC
  /\ _set_by_mask (VList [VBool true; VBool false]) val3 da5
     = (inr (MaskLengthMismatch 5 2), da5)
  /\ __setitem__ (VList []) val3 da5 = (inr SequenceIndexOutOfRange, da5).
Proof.
  split; [apply setitem_mask_list|]. split; [reflexivity|]. split.
  - rewrite _set_by_mask_length_mismatch by (simpl; lia). reflexivity.
  - apply setitem_empty_list.
Qed.

Lemma set_through_offsets_or_ids_witness :
  offsets_or_ids (VList [VInt 0; VStr "d3"]) = true
  /\ single_value (VDoc (doc "z" EmptyString)) = true
  /\ forallb offset_or_id [VInt 0; VStr "d3"] = true
  /\ __setitem__ (VList [VInt 0; VStr "d3"]) (VDoc (doc "z" EmptyString)) da5
     = (inl tt, [doc "z" EmptyString; doc "d1" EmptyString; doc "d2" EmptyString;
                 doc "z" EmptyString; doc "d4" EmptyString])
  /\ single_value val2 = false
  /\ __setitem__ (VList [VInt 0; VStr "d3"]) val2 da5
     = (inl tt, [doc "a" "x"; doc "d1" EmptyString; doc "d2" EmptyString;
                 doc "b" "x"; doc "d4" EmptyString]).
Proof.
  destruct (set_through_offsets_or_ids (VList [VInt 0; VStr "d3"])
              (VDoc (doc "z" EmptyString)) da5 eq_refl) as [Hsingle _].
  destruct (Hsingle eq_refl) as [_ Hone].
  destruct (set_through_offsets_or_ids (VList [VInt 0; VStr "d3"])
              val2 da5 eq_refl) as [_ Hzipped].
  destruct (Hzipped eq_refl) as [_ Hpairs].
  split; [reflexivity|]. split; [reflexivity|]. split; [reflexivity|].
  split; [rewrite (Hone eq_refl); reflexivity|].
  split; [reflexivity|]. rewrite (Hpairs eq_refl). reflexivity.
Defined.

Lemma set_through_ndarray_witness :
  ndim (squeeze row_array) = 1%nat
  /\ __setitem__ (VNdarray row_array)
                 (VDoc (doc "z" EmptyString)) da5
     = __setitem__ (VList [VInt 0; VInt (-1)]) (VDoc (doc "z" EmptyString)) da5
  /\ (1 < ndim (squeeze square_array))%nat
  /\ __setitem__ (VNdarray square_array)
                 (VDoc (doc "z" EmptyString)) da5
     = (inr (NdimNotOne 2), da5).
Proof.
  split; [reflexivity|]. split.
  - apply (set_through_ndarray row_array
             (VDoc (doc "z" EmptyString)) da5). reflexivity.
  - split; [vm_compute; lia|].
    apply (set_through_ndarray square_array
             (VDoc (doc "z" EmptyString)) da5). vm_compute. lia.
Defined.

Lemma attribute_set_on_empty_selection_witness :
  getitem da5 (VSlice (Some 5) (Some 9) None) = inl (VDocs [])
  /\ truthy (VDocs []) = false
  /\ _set_docs_attributes (VSlice (Some 5) (Some 9) None) (VStr "text")
                          (VList [VStr "x"; VStr "y"]) da5
     = (inl tt, da5).
Proof.
  split; [reflexivity|]. split; [reflexivity|].
  apply (attribute_set_on_empty_selection (VSlice (Some 5) (Some 9) None)
           (VStr "text") (VList [VStr "x"; VStr "y"]) (VDocs []) da5);
    reflexivity.
Defined.

Lemma paired_selector_precedence_witness :
  contains da_ab (VStr "b") = true
  /\ __setitem__ (VTuple [VStr "a"; VStr "b"]) val2 da_ab
     = dual_selection (VStr "a") (VStr "b") val2 da_ab
  /\ getitem da_ab (VInt 0) = inl (VDoc (doc "a" EmptyString))
  /\ hasattr (VDoc (doc "a" EmptyString)) "b" = false
  /\ __setitem__ (VTuple [VInt 0; VStr "b"]) val2 da_ab
     = (inr (NotAttributeOrList (VStr "b")), da_ab).
Proof.
  destruct (paired_selector_precedence val2 da_ab) as (Hids & _ & Hattr).
  split; [reflexivity|]. split.
  - apply Hids. reflexivity.
  - split; [reflexivity|]. split; [reflexivity|].
    apply (Hattr 0 "b" (VDoc (doc "a" EmptyString))); reflexivity.
Defined.

(** C2 as stated fails: with identifiers ["a"] and ["b"] in the
    collection and ["a"] at offset 0, [da[0, "b"] = x] is not the dual
    selection, which would set both documents; it raises [ValueError]
    and sets neither. *)
Lemma offset_then_known_id_is_not_dual_selection :
  contains da_ab (VStr "b") = true
  /\ getitem da_ab (VInt 0) = inl (VDoc (doc "a" EmptyString))
  /\ dual_selection (VInt 0) (VStr "b") val2 da_ab
     = (inl tt, [doc "a" "x"; doc "b" "x"])
  /\ __setitem__ (VTuple [VInt 0; VStr "b"]) val2 da_ab
     = (inr (NotAttributeOrList (VStr "b")), da_ab)
  /\ __setitem__ (VTuple [VInt 0; VStr "b"]) val2 da_ab
     ≠ dual_selection (VInt 0) (VStr "b") val2 da_ab.
Proof.
  split; [reflexivity|]. split; [reflexivity|]. split; [reflexivity|].
  split; [reflexivity|]. discriminate.
Qed.

End SetItemClaims.

(** ** The Redis mixin *)

Module RedisFacts.
Import Py Eff Redis Samples.
Local Open Scope py_scope.

Section Facts.
Context {Blob : Type} {ser : Serializer Blob} {env : Env Blob}.

(** [_getitem] never gives a document back: it returns [None], or
    raises [KeyError] when the lookup of the prefix or the client
    raised. *)
Lemma _getitem_result (doc_id : string) (c : Client) :
  (_getitem doc_id c).1 = inl VNone
  \/ (_getitem doc_id c).1 = inr (KeyError (VStr doc_id)).
Proof.
  unfold _getitem, bind, try_except, config_key_prefix.
  destruct key_prefix as [prefix|]; simpl; [|auto].
  destruct (client_get (prefix +:+ doc_id) c) as [[v|e] c']; simpl; auto.
Qed.

(** Without a [key_prefix] on the configuration nothing is sent. *)
Lemma _del_doc_by_id_no_prefix (_id : string) (c : Client) :
  key_prefix = None ->
  _del_doc_by_id _id c = (inr (NoAttribute "RedisConfig" "key_prefix"), c).
Proof.
  intros Hnone. unfold _del_doc_by_id, bind, config_key_prefix.
  rewrite Hnone. reflexivity.
Qed.

Lemma _getitem_no_prefix (doc_id : string) (c : Client) :
  key_prefix = None ->
  _getitem doc_id c = (inr (KeyError (VStr doc_id)), c).
Proof.
  intros Hnone. unfold _getitem, bind, try_except, config_key_prefix.
  rewrite Hnone. reflexivity.
Qed.

Lemma _del_doc_by_id_missing (prefix _id : string) (c : Client) :
  key_prefix = Some prefix ->
  db c !! (prefix +:+ _id) = None ->
  _del_doc_by_id _id c
  = (inl tt, mkClient (db c) (issued c ++ [EXISTS (prefix +:+ _id)])).
Proof.
  intros Hprefix Hnone.
  unfold _del_doc_by_id, _doc_id_exists, bind, client_exists, config_key_prefix.
  rewrite Hprefix. cbn. rewrite Hnone. rewrite bool_decide_eq_false_2; [reflexivity|].
  by intros [x Hx].
Qed.

Lemma _del_doc_by_id_present (prefix _id : string) (c : Client) :
  key_prefix = Some prefix ->
  is_Some (db c !! (prefix +:+ _id)) ->
  _del_doc_by_id _id c
  = (inl tt, mkClient (delete (prefix +:+ _id) (db c))
                      (issued c ++ [EXISTS (prefix +:+ _id);
                                    DEL (prefix +:+ _id)])).
Proof.
  intros Hprefix Hsome.
  unfold _del_doc_by_id, _doc_id_exists, bind, client_exists, config_key_prefix.
  rewrite Hprefix. cbn. rewrite bool_decide_eq_true_2 by done. cbn.
  by rewrite <- app_assoc.
Qed.

(** C5.  On the Redis backend [_get_doc_by_id(id)] after
    [_set_doc_by_id(id, d)] does not return [d]: [_getitem] fetches
    the key and returns nothing, so the result is [None], or
    [KeyError] when the client raised. *)
Theorem get_after_set_returns_no_document
        (_id : string) (d : Document) (c : Client) :
  (_get_doc_by_id _id (_set_doc_by_id _id d c).2).1 ≠ inl (VDoc d)
  /\ ((_get_doc_by_id _id (_set_doc_by_id _id d c).2).1 = inl VNone
      \/ (_get_doc_by_id _id (_set_doc_by_id _id d c).2).1
         = inr (KeyError (VStr _id))).
Proof.
  unfold _get_doc_by_id.
  destruct (_getitem_result _id (_set_doc_by_id _id d c).2) as [E|E];
    rewrite E; split; auto; discriminate.
Qed.

(** C10.  [_del_doc_by_id] is not best-effort on a configuration as
    [RedisConfig] declares it: the configuration has no [key_prefix],
    so for every identifier, stored or not, the delete raises
    [AttributeError] before any command is issued, and the store is
    left as it was.  Only on a configuration object that carries a
    [key_prefix] does the delete of a missing key return without
    raising, with the keyspace as it was and [EXISTS] the only command
    issued, and is [DEL] issued only when the key exists. *)
Theorem delete_by_id_raises_attribute_error (_id : string) (c : Client) :
  (key_prefix = None ->
   _del_doc_by_id _id c = (inr (NoAttribute "RedisConfig" "key_prefix"), c)
   /\ class_of (NoAttribute "RedisConfig" "key_prefix") = AttributeErrorC)
  /\ (forall prefix, key_prefix = Some prefix ->
      (db c !! (prefix +:+ _id) = None ->
       _del_doc_by_id _id c
       = (inl tt, mkClient (db c) (issued c ++ [EXISTS (prefix +:+ _id)])))
      /\ (DEL (prefix +:+ _id) ∈ issued (_del_doc_by_id _id c).2
          -> DEL (prefix +:+ _id) ∉ issued c
          -> is_Some (db c !! (prefix +:+ _id)))).
Proof.
  split.
  - intros Hnone. split; [by apply _del_doc_by_id_no_prefix|reflexivity].
  - intros prefix Hprefix. split; [by apply _del_doc_by_id_missing|].
    intros Hdel Hnew.
    destruct (db c !! (prefix +:+ _id)) as [v|] eqn:E; [by eexists|].
    rewrite (_del_doc_by_id_missing prefix) in Hdel by done. simpl in Hdel.
    apply elem_of_app in Hdel as [Hdel|Hdel]; [done|].
    apply list_elem_of_singleton in Hdel. discriminate.
Qed.

End Facts.

Lemma delete_by_id_raises_attribute_error_witness :
  Redis.key_prefix (Env := redis_env) = None
  /\ _del_doc_by_id (env := redis_env) "a" redis_empty
     = (inr (NoAttribute "RedisConfig" "key_prefix"), redis_empty)
  /\ Redis.key_prefix (Env := redis_env_prefixed) = Some "doc:"
  /\ _del_doc_by_id (env := redis_env_prefixed) "a" redis_empty
     = (inl tt, mkClient ∅ [EXISTS "doc:a"]).
Proof.
  destruct (delete_by_id_raises_attribute_error (env := redis_env) "a" redis_empty)
    as [Hdeclared _].
  destruct (delete_by_id_raises_attribute_error (env := redis_env_prefixed)
              "a" redis_empty) as [_ Hprefixed].
  split; [reflexivity|]. split; [apply (Hdeclared eq_refl)|].
  split; [reflexivity|].
  apply (proj1 (Hprefixed "doc:" eq_refl)). reflexivity.
Defined.

End RedisFacts.

(** ** The Qdrant mixin *)

Module QdrantFacts.
Import Py Eff Qdrant.
Local Open Scope py_scope.

Section Facts.
Context {Blob : Type} {ser : Serializer Blob}.
Variable embedding_to_array : option (list Q) -> list Q.

Lemma _set_doc_by_id_collection (_id : string) (d : Document) (c : gmap string Point) :
  _set_doc_by_id embedding_to_array _id d c
  = (inl tt,
     <[id d := mkPoint (to_base64 d) (embedding_to_array (embedding d))]>
       (if String.eqb _id (id d) then c else delete _id c)).
Proof.
  unfold _set_doc_by_id, bind, _del_doc_by_id, delete_points, upsert_points.
  destruct (String.eqb _id (id d)); reflexivity.
Qed.

(** When [d.id != _id], the old identifier no longer exists. *)
Lemma old_id_is_gone (_id : string) (d : Document) (c : gmap string Point) :
  _id ≠ id d ->
  (_id_exists _id (_set_doc_by_id embedding_to_array _id d c).2).1 = inl false
  /\ (_get_doc_by_id _id (_set_doc_by_id embedding_to_array _id d c).2).1 = inr (KeyError (VStr _id)).
Proof.
  intros Hne. rewrite _set_doc_by_id_collection. simpl.
  assert (String.eqb _id (id d) = false) as -> by (by apply String.eqb_neq).
  unfold _id_exists, _get_doc_by_id, bind, get_point.
  rewrite lookup_insert_ne by done. rewrite lookup_delete_eq. done.
Qed.

End Facts.
End QdrantFacts.

(** ** The Elasticsearch mixin *)

Module ElasticFacts.
Import Py Eff Elastic Samples.
Local Open Scope py_scope.

Section Facts.
Context {Blob : Type} {ser : Serializer Blob}.
Variable _map_embedding : option (list Q) -> list Q.

Lemma extend_loop_result (values : list Document) (request : list action)
      (st : Store) :
  extend_loop _map_embedding values request st
  = (inl (request ++ map (action_of _map_embedding) values),
     mkStore (index st) (offset2ids st ++ map id values)).
Proof.
  revert request st. induction values as [|d values IH]; intros request st.
  - simpl. unfold ret. rewrite !app_nil_r. by destruct st.
  - simpl. unfold bind, offset2ids_append. rewrite IH. simpl.
    by rewrite <- !app_assoc.
Qed.

Lemma extend_result (values : list Document) (st : Store) :
  extend _map_embedding values st
  = (inl tt,
     mkStore (foldl put (index st) (map (action_of _map_embedding) values))
             (offset2ids st ++ map id values)).
Proof.
  unfold extend, bind. rewrite extend_loop_result. simpl.
  destruct values as [|d values]; [reflexivity|]. reflexivity.
Qed.

Lemma foldl_put_size (values : list Document) (m : gmap string (list Q * Blob)) :
  NoDup (map id values) ->
  (forall d, d ∈ values -> m !! id d = None) ->
  size (foldl put m (map (action_of _map_embedding) values)) = (size m + length values)%nat.
Proof.
  revert m. induction values as [|d values IH]; intros m Hnd Hfresh.
  - simpl. lia.
  - simpl in *. apply NoDup_cons in Hnd as [Hd Hnd].
    rewrite IH; [| done |].
    + unfold put. simpl. rewrite map_size_insert_None; [lia|].
      apply Hfresh. by left.
    + intros d' Hd'. unfold put. simpl.
      rewrite lookup_insert_ne.
      * apply Hfresh. by right.
      * intros E. apply Hd. rewrite E. by apply list_elem_of_fmap_2.
Qed.

(** C6, amended.  From a collection whose Offset2ID table has the
    length of the collection and no duplicate, [extend] of documents
    with pairwise-distinct identifiers, none of which is in the
    collection or in the table yet, appends their identifiers to the
    table in input order; afterwards the table still has the length
    of the collection and no duplicate. *)
Theorem extend_keeps_table (docs : list Document) (st : Store) :
  table_ok st ->
  NoDup (map id docs) ->
  (forall d, d ∈ docs -> index st !! id d = None /\ id d ∉ offset2ids st) ->
  (extend _map_embedding docs st).1 = inl tt
  /\ offset2ids (extend _map_embedding docs st).2
     = offset2ids st ++ map id docs
  /\ length (offset2ids (extend _map_embedding docs st).2)
     = __len__ (extend _map_embedding docs st).2
  /\ NoDup (offset2ids (extend _map_embedding docs st).2).
Proof.
  intros [Hlen Hnd] Hdocs Hfresh. rewrite extend_result. simpl.
  split; [reflexivity|]. split; [reflexivity|]. split.
  - unfold __len__ in *. simpl. rewrite foldl_put_size.
    + rewrite length_app, length_map. lia.
    + done.
    + intros d Hd. by apply Hfresh.
  - apply NoDup_app. split; [done|]. split; [|done].
    intros i Hi Hin. apply list_elem_of_fmap in Hin as (d & -> & Hd).
    by apply (Hfresh d Hd).
Qed.

End Facts.

(** C6 as stated fails: [extend([a])] on the empty collection, then
    [extend([a])] again.  The second call is given pairwise-distinct
    identifiers and a table in order, and leaves the table
    [["a"; "a"]] for a collection of one document. *)
Lemma extend_same_document_twice :
  let a := doc "a" EmptyString in
  let once := (extend (ser := plain) zero_embedding [a] elastic_empty).2 in
  let twice := (extend (ser := plain) zero_embedding [a] once).2 in
  table_ok once
  /\ NoDup (map id [a])
  /\ offset2ids twice = ["a"; "a"]
  /\ __len__ twice = 1%nat
  /\ ~ table_ok twice.
Proof.
  simpl. split; [|split; [|split; [|split]]].
  - split; [reflexivity|]. vm_compute. apply NoDup_singleton.
  - apply NoDup_singleton.
  - reflexivity.
  - reflexivity.
  - intros [Hlen _]. vm_compute in Hlen. discriminate.
Qed.

Lemma extend_keeps_table_witness :
  table_ok elastic_empty
  /\ NoDup (map id [doc "a" EmptyString; doc "b" EmptyString])
  /\ offset2ids (extend (ser := plain) zero_embedding
                        [doc "a" EmptyString; doc "b" EmptyString] elastic_empty).2
     = ["a"; "b"]
  /\ __len__ (extend (ser := plain) zero_embedding
                     [doc "a" EmptyString; doc "b" EmptyString] elastic_empty).2 = 2%nat.
Proof.
  assert (table_ok elastic_empty) as Hok.
  { split; [reflexivity|apply NoDup_nil_2]. }
  assert (NoDup (map id [doc "a" EmptyString; doc "b" EmptyString])) as Hnd.
  { apply NoDup_cons. split.
    - intros Hin. apply list_elem_of_singleton in Hin. discriminate.
    - apply NoDup_singleton. }
  destruct (extend_keeps_table (ser := plain) zero_embedding
              [doc "a" EmptyString; doc "b" EmptyString] elastic_empty Hok Hnd)
    as (_ & Hids & Hlen & _).
  { intros d _. split; [reflexivity|]. apply not_elem_of_nil. }
  split; [exact Hok|]. split; [exact Hnd|]. split; [exact Hids|].
  rewrite <- Hlen, Hids. reflexivity.
Defined.

End ElasticFacts.

(** ** More about the resolver *)

Module SetItemMore.
Import Py Eff SetItem SetItemFacts Memory Samples.
Local Open Scope py_scope.

Section AnyBackend.
Context {Store : Type} {self : Backend Store}.

Lemma bind_ret_tt (body : M Store unit) (st : Store) :
  bind body (fun _ => ret tt) st = body st.
Proof. unfold bind, ret. by destruct (body st) as [[[]|e] st']. Qed.

Lemma for_each_app {A} (l1 l2 : list A) (body : A -> M Store unit) (st : Store) :
  for_each (l1 ++ l2) body st
  = bind (for_each l1 body) (fun _ => for_each l2 body) st.
Proof.
  revert st. induction l1 as [|x l1 IH]; intros st; [reflexivity|].
  simpl. unfold bind in *. destruct (body x st) as [[[]|e] st']; [apply IH|reflexivity].
Qed.

(** X1.  A NumPy scalar index is converted by [int]: [np.int64] and
    [np.bool_] give the set at that offset, a finite [np.float64] the
    set at the offset it truncates to (towards zero); on a NaN the
    conversion raises [ValueError] and on an infinity [OverflowError],
    and nothing is set.  A Python [bool], [None] and a [float] are
    refused with the [IndexError] that names the type with its
    module, and nothing is set. *)
Theorem scalar_index_dispatch (z : Z) (q : Q) (b negative : bool) (x : pyfloat)
        (value : value) (st : Store) :
  __setitem__ (VNp (NpInt z)) value st = _set_doc_by_offset z value st
  /\ __setitem__ (VNp (NpBool b)) value st = _set_doc_by_offset (Z.b2z b) value st
  /\ __setitem__ (VNp (NpFloat (Finite q))) value st
     = _set_doc_by_offset (Z.quot (Qnum q) (Z.pos (Qden q))) value st
  /\ __setitem__ (VNp (NpFloat NaN)) value st = (inr FloatNaNToInt, st)
  /\ class_of FloatNaNToInt = ValueErrorC
  /\ __setitem__ (VNp (NpFloat (Infinity negative))) value st
     = (inr FloatInfinityToInt, st)
  /\ class_of FloatInfinityToInt = OverflowErrorC
  /\ __setitem__ (VBool b) value st
     = (inr (UnsupportedIndexType "builtins.bool" (VBool b)), st)
  /\ __setitem__ VNone value st
     = (inr (UnsupportedIndexType "builtins.NoneType" VNone), st)
  /\ __setitem__ (VFloat x) value st
     = (inr (UnsupportedIndexType "builtins.float" (VFloat x)), st).
Proof.
  repeat split; rewrite !setitem_unfold; reflexivity.
Qed.

(** X2.  A set through a list of offsets is not transactional: when
    the offsets before [k] are set and the set at [k] raises, the
    exception comes out, the earlier sets stay, and the offsets after
    [k] are not tried. *)
Theorem list_set_stops_at_first_error
        (pre post : list Z) (k : Z) (value : value) (e : exn) (st st1 st2 : Store) :
  single_value value = true ->
  for_each pre (fun j => _set_doc_by_offset j value) st = (inl tt, st1) ->
  _set_doc_by_offset k value st1 = (inr e, st2) ->
  __setitem__ (VList (map VInt (pre ++ k :: post))) value st = (inr e, st2).
Proof.
  intros Hsingle Hpre Hk.
  assert (exists z zs, pre ++ k :: post = z :: zs) as (z & zs & E).
  { destruct pre; simpl; eauto. }
  rewrite E, setitem_offsets_single by done. rewrite <- E.
  rewrite for_each_app. unfold bind. rewrite Hpre. simpl.
  unfold bind. by rewrite Hk.
Qed.

(** X3.  A paired index whose first component is neither a string, an
    integer, a slice, a sequence nor the ellipsis (a NumPy array or
    scalar, a float, [None]) is accepted and does nothing:
    [_set_by_pair] has no last [else]. *)
Theorem pair_with_other_selector_is_ignored (idx1 idx2 value : value) (st : Store) :
  is_str idx1 = false -> is_int idx1 = false ->
  is_slice idx1 || is_sequence idx1 || is_ellipsis idx1 = false ->
  __setitem__ (VTuple [idx1; idx2]) value st = (inl tt, st).
Proof.
  intros Hstr Hint Hsel. rewrite setitem_pair. unfold _set_by_pair.
  by rewrite Hstr, Hint, Hsel.
Qed.

(** X4.  With a string first, a string second that is no identifier of
    the collection, no attribute of the first document and not made of
    attribute names raises the [ValueError] of the identifier branch,
    and nothing is set. *)
Theorem unknown_second_string_is_refused
        (s1 s2 : string) (d value : value) (st : Store) :
  contains st (VStr s2) = false ->
  getitem st (VStr s1) = inl d ->
  hasattr d s2 = false ->
  forallb (fun attr => hasattr d (str_of attr)) (map VStr (chars s2)) = false ->
  __setitem__ (VTuple [VStr s1; VStr s2]) value st
  = (inr (NeitherIdNorAttribute (VStr s2)), st)
  /\ class_of (NeitherIdNorAttribute (VStr s2)) = ValueErrorC.
Proof.
  intros Hin Hd Hattr Hall. split; [|reflexivity].
  rewrite setitem_pair. unfold _set_by_pair. simpl.
  unfold bind at 1. unfold get at 1. rewrite Hin.
  unfold bind at 1. unfold is_attribute. simpl.
  unfold bind at 1. unfold read at 1. rewrite Hd. unfold ret at 1.
  rewrite Hattr.
  unfold bind at 1. unfold is_attribute_list. simpl.
  assert (forallb is_str (seq_items (VStr s2)) = true) as ->.
  { unfold seq_items. simpl. clear Hall.
    induction (chars s2) as [|c l IH]; [reflexivity|exact IH]. }
  unfold seq_items. simpl.
  rewrite (all_hasattr_found _ d) by done. by rewrite Hall.
Qed.

(** X5.  One attribute name that is neither ['tensor'] nor
    ['embedding'] and a value that is no list or tuple: every selected
    document gets that same value, by identifier, in selection
    order. *)
Theorem attribute_value_is_broadcast
        (index value _docs : value) (a : string) (ds : list Py.value) (st : Store) :
  getitem st index = inl _docs -> truthy _docs = true ->
  py_iter _docs = inl ds ->
  a ≠ "tensor" -> a ≠ "embedding" ->
  is_list_or_tuple value = false ->
  _set_docs_attributes index (VStr a) value st
  = for_each ds (fun _d =>
      i <- lift (get_id _d) ;; _set_doc_attr_by_id (VStr i) (VStr a) value) st.
Proof.
  intros Hget Htrue Hiter Hten Hemb Hscalar.
  apply String.eqb_neq in Hten, Hemb.
  unfold _set_docs_attributes. cbn [is_str]. rewrite Hscalar. cbn [andb negb].
  rewrite Hscalar. cbn [negb].
  unfold bind at 1. unfold read at 1. rewrite Hget, Htrue. cbn [negb].
  unfold bind at 1. unfold lift at 1.
  change (py_iter (VTuple [VStr a])) with (inl [VStr a] : list Py.value + exn).
  change (seq_items (VTuple [value])) with [value].
  cbn [zip combine set_attributes_loop is_str str_of andb].
  rewrite Hten, Hemb, Hscalar. cbn [orb negb].
  unfold bind at 1. unfold lift at 1. rewrite Hiter. apply bind_ret_tt.
Qed.

(** X6.  One attribute name that is neither ['tensor'] nor
    ['embedding'] and a flat list of values: the values go to the
    selected documents pairwise, as far as the shorter of the two
    goes; an empty list sets nothing. *)
Theorem attribute_values_are_positional
        (index _docs : value) (a : string) (vs ds : list value) (st : Store) :
  getitem st index = inl _docs -> truthy _docs = true ->
  py_iter _docs = inl ds ->
  a ≠ "tensor" -> a ≠ "embedding" ->
  existsb is_list_or_tuple vs = false ->
  _set_docs_attributes index (VStr a) (VList vs) st
  = for_each (zip ds vs) (fun '(_d, _vv) =>
      i <- lift (get_id _d) ;; _set_doc_attr_by_id (VStr i) (VStr a) _vv) st.
Proof.
  intros Hget Htrue Hiter Hten Hemb Hflat.
  apply String.eqb_neq in Hten, Hemb.
  unfold _set_docs_attributes. cbn [is_str is_list_or_tuple].
  change (seq_items (VList vs)) with vs. rewrite Hflat. cbn [andb negb is_list_or_tuple].
  unfold bind at 1. unfold read at 1. rewrite Hget, Htrue. cbn [negb].
  unfold bind at 1. unfold lift at 1.
  change (py_iter (VTuple [VStr a])) with (inl [VStr a] : list Py.value + exn).
  change (seq_items (VTuple [VList vs])) with [VList vs].
  cbn [zip combine set_attributes_loop is_str str_of andb is_list_or_tuple].
  rewrite Hten, Hemb. cbn [orb negb].
  change (seq_items (VList vs)) with vs.
  unfold bind at 1. unfold lift at 1. rewrite Hiter. apply bind_ret_tt.
Qed.

(** X7.  Several attribute names with a flat list of values: the list
    is taken as the values of the first name, one per document, and
    the other names are dropped without an error. *)
Theorem surplus_attribute_names_are_dropped
        (index a : value) (more vs : list value) (st : Store) :
  is_str a = true ->
  existsb is_list_or_tuple vs = false ->
  _set_docs_attributes index (VList (a :: more)) (VList vs) st
  = _set_docs_attributes index a (VList vs) st.
Proof.
  intros Hstr Hflat. unfold _set_docs_attributes. simpl. rewrite Hstr.
  change (seq_items (VList vs)) with vs. rewrite Hflat. simpl.
  unfold bind. destruct (read _ st) as [[_docs|e] st']; [|reflexivity].
  destruct (negb (truthy _docs)); [reflexivity|].
  unfold lift. simpl. by destruct more.
Qed.

(** X8.  One attribute name with a list of lists: only the first inner
    list is used (as the per-document values of the attribute, or as
    the whole column for ['tensor'] and ['embedding']); the other
    inner lists are dropped without an error. *)
Theorem surplus_value_rows_are_dropped
        (index : value) (a : string) (v1 : value) (more : list value) (st : Store) :
  is_list_or_tuple v1 = true ->
  _set_docs_attributes index (VStr a) (VList (v1 :: more)) st
  = _set_docs_attributes index (VStr a) (VList [v1]) st.
Proof.
  intros Hrow. unfold _set_docs_attributes. simpl.
  unfold seq_items. simpl. rewrite Hrow. simpl.
  reflexivity.
Qed.

End AnyBackend.

Lemma list_set_stops_at_first_error_witness :
  single_value (VDoc (doc "z" EmptyString)) = true
  /\ __setitem__ (VList [VInt 0; VInt 9; VInt 1]) (VDoc (doc "z" EmptyString)) da5
     = (inr (IndexOutOfRange 9),
        [doc "z" EmptyString; doc "d1" EmptyString; doc "d2" EmptyString;
         doc "d3" EmptyString; doc "d4" EmptyString]).
Proof.
  split; [reflexivity|].
  apply (list_set_stops_at_first_error [0] [1] 9 (VDoc (doc "z" EmptyString))
           (IndexOutOfRange 9) da5
           [doc "z" EmptyString; doc "d1" EmptyString; doc "d2" EmptyString;
            doc "d3" EmptyString; doc "d4" EmptyString]); reflexivity.
Defined.

Lemma pair_with_other_selector_is_ignored_witness :
  __setitem__ (VTuple [VNdarray row_array; VStr "text"]) (VStr "x") da5
  = (inl tt, da5).
Proof.
  apply (pair_with_other_selector_is_ignored (VNdarray row_array) (VStr "text")
           (VStr "x") da5); reflexivity.
Defined.

Lemma unknown_second_string_is_refused_witness :
  contains da_ab (VStr "c") = false
  /\ getitem da_ab (VStr "a") = inl (VDoc (doc "a" EmptyString))
  /\ __setitem__ (VTuple [VStr "a"; VStr "c"]) val2 da_ab
     = (inr (NeitherIdNorAttribute (VStr "c")), da_ab).
Proof.
  split; [reflexivity|]. split; [reflexivity|].
  apply (unknown_second_string_is_refused "a" "c" (VDoc (doc "a" EmptyString))
           val2 da_ab); reflexivity.
Defined.

Lemma attribute_value_is_broadcast_witness :
  getitem da5 (VSlice (Some 0) (Some 2) None)
  = inl (VDocs [doc "d0" EmptyString; doc "d1" EmptyString])
  /\ _set_docs_attributes (VSlice (Some 0) (Some 2) None) (VStr "text") (VStr "x") da5
     = (inl tt, [doc "d0" "x"; doc "d1" "x"; doc "d2" EmptyString;
                 doc "d3" EmptyString; doc "d4" EmptyString]).
Proof.
  split; [reflexivity|].
  rewrite (attribute_value_is_broadcast (VSlice (Some 0) (Some 2) None) (VStr "x")
             (VDocs [doc "d0" EmptyString; doc "d1" EmptyString]) "text"
             [VDoc (doc "d0" EmptyString); VDoc (doc "d1" EmptyString)] da5);
    try reflexivity; discriminate.
Defined.

Lemma attribute_values_are_positional_witness :
  getitem da5 (VSlice (Some 0) (Some 2) None)
  = inl (VDocs [doc "d0" EmptyString; doc "d1" EmptyString])
  /\ _set_docs_attributes (VSlice (Some 0) (Some 2) None) (VStr "text")
                          (VList [VStr "x"; VStr "y"]) da5
     = (inl tt, [doc "d0" "x"; doc "d1" "y"; doc "d2" EmptyString;
                 doc "d3" EmptyString; doc "d4" EmptyString]).
Proof.
  split; [reflexivity|].
  rewrite (attribute_values_are_positional (VSlice (Some 0) (Some 2) None)
             (VDocs [doc "d0" EmptyString; doc "d1" EmptyString]) "text"
             [VStr "x"; VStr "y"]
             [VDoc (doc "d0" EmptyString); VDoc (doc "d1" EmptyString)] da5);
    try reflexivity; discriminate.
Defined.

Lemma surplus_attribute_names_are_dropped_witness :
  _set_docs_attributes (VSlice (Some 0) (Some 2) None)
                       (VList [VStr "text"; VStr "id"])
                       (VList [VStr "x"; VStr "y"]) da5
  = (inl tt, [doc "d0" "x"; doc "d1" "y"; doc "d2" EmptyString;
              doc "d3" EmptyString; doc "d4" EmptyString]).
Proof.
  rewrite (surplus_attribute_names_are_dropped (VSlice (Some 0) (Some 2) None)
             (VStr "text") [VStr "id"] [VStr "x"; VStr "y"] da5);
    reflexivity.
Defined.

Lemma surplus_value_rows_are_dropped_witness :
  _set_docs_attributes (VSlice (Some 0) (Some 2) None) (VStr "text")
                       (VList [VList [VStr "x"; VStr "y"];
                               VList [VStr "u"; VStr "v"]]) da5
  = (inl tt, [doc "d0" "x"; doc "d1" "y"; doc "d2" EmptyString;
              doc "d3" EmptyString; doc "d4" EmptyString]).
Proof.
  rewrite (surplus_value_rows_are_dropped (VSlice (Some 0) (Some 2) None) "text"
             (VList [VStr "x"; VStr "y"]) [VList [VStr "u"; VStr "v"]] da5);
    reflexivity.
Defined.

End SetItemMore.

(** ** More about the Qdrant mixin *)

Module QdrantMore.
Import Py Eff Qdrant QdrantScan MoreSamples Samples.
Local Open Scope py_scope.

Section Facts.
Context {Blob : Type} {ser : Serializer Blob}.
Variable embedding_to_array : option (list Q) -> list Q.

(** A point that is found is not decoded: the reply is turned into
    JSON text, and indexing that text raises. *)
Lemma get_doc_found (_id : string) (p : Point) (c : gmap string (@Point Blob)) :
  c !! _id = Some p ->
  _get_doc_by_id _id c = (inr StrIndexNotInt, c).
Proof. intros Hp. unfold _get_doc_by_id, bind, get_point. by rewrite Hp. Qed.

Lemma get_doc_missing (_id : string) (c : gmap string (@Point Blob)) :
  c !! _id = None ->
  _get_doc_by_id _id c = (inr (KeyError (VStr _id)), c).
Proof. intros Hp. unfold _get_doc_by_id, bind, get_point. by rewrite Hp. Qed.

Lemma id_exists_missing (x : string) (c : gmap string (@Point Blob)) :
  c !! x = None -> _id_exists x c = (inl false, c).
Proof. intros Hx. unfold _id_exists. by rewrite get_doc_missing. Qed.

Lemma id_exists_stored (x : string) (c : gmap string (@Point Blob)) :
  _id_exists x c
  = (if bool_decide (is_Some (c !! x)) then inr StrIndexNotInt else inl false, c).
Proof.
  unfold _id_exists. destruct (bool_decide_reflect (is_Some (c !! x))) as [[p E]|E].
  - by rewrite (get_doc_found _ p).
  - rewrite get_doc_missing; [done|]. by apply eq_None_not_Some.
Qed.

Lemma set_doc_result (_id : string) (d : Document) (c : gmap string (@Point Blob)) :
  _set_doc_by_id embedding_to_array _id d c
  = (inl tt,
     <[id d := mkPoint (to_base64 d) (embedding_to_array (embedding d))]>
       (if String.eqb _id (id d) then c else delete _id c)).
Proof.
  unfold _set_doc_by_id, bind, _del_doc_by_id, delete_points, upsert_points.
  destruct (String.eqb _id (id d)); reflexivity.
Qed.

(** X9.  After [_set_doc_by_id(_id, d)] the point stored under [d.id]
    holds [d]: with a lossless serializer its [dict] decodes to [d].
    Yet [_get_doc_by_id(d.id)] does not return [d]: the reply is
    turned into JSON text before it is decoded, and indexing the text
    raises [TypeError]; so do [d.id in da] and [d in da], since
    [_id_exists] catches [KeyError] only. *)
Theorem set_then_get_by_own_id_raises (_id : string) (d : Document)
        (c : gmap string (@Point Blob)) :
  lossless ->
  (exists point,
      (_set_doc_by_id embedding_to_array _id d c).2 !! id d = Some point
      /\ _qdrant_to_document (Dict point) = inl (VDoc d))
  /\ (_get_doc_by_id (id d) (_set_doc_by_id embedding_to_array _id d c).2).1
     = inr StrIndexNotInt
  /\ class_of StrIndexNotInt = TypeErrorC
  /\ (__contains__ (VStr (id d)) (_set_doc_by_id embedding_to_array _id d c).2).1
     = inr StrIndexNotInt
  /\ (__contains__ (VDoc d) (_set_doc_by_id embedding_to_array _id d c).2).1
     = inr StrIndexNotInt.
Proof.
  intros Hrt. rewrite set_doc_result. cbn [snd].
  set (p := mkPoint (to_base64 d) (embedding_to_array (embedding d))).
  set (c' := if String.eqb _id (id d) then c else delete _id c).
  assert (<[id d := p]> c' !! id d = Some p) as Hp by apply lookup_insert_eq.
  split; [|split; [|split; [|split]]].
  - exists p. split; [done|]. subst p. cbn. by rewrite Hrt.
  - by rewrite (get_doc_found _ p).
  - reflexivity.
  - cbn. rewrite id_exists_stored, Hp. reflexivity.
  - cbn. rewrite id_exists_stored, Hp. reflexivity.
Qed.

(** X10.  [_set_doc_by_id(_id, d)] touches the points [_id] and [d.id]
    only: every other point is as before, and when [d.id != _id] the
    point [_id] is gone, so that [_get_doc_by_id(_id)] raises
    [KeyError] and [_id] is not in the collection. *)
Theorem set_touches_two_ids (_id : string) (d : Document)
        (c : gmap string (@Point Blob)) :
  (forall j, j ≠ _id -> j ≠ id d ->
     (_set_doc_by_id embedding_to_array _id d c).2 !! j = c !! j)
  /\ (_id ≠ id d ->
      (_set_doc_by_id embedding_to_array _id d c).2 !! _id = None
      /\ (_get_doc_by_id _id (_set_doc_by_id embedding_to_array _id d c).2).1
         = inr (KeyError (VStr _id))
      /\ (__contains__ (VStr _id) (_set_doc_by_id embedding_to_array _id d c).2).1
         = inl false).
Proof.
  rewrite set_doc_result. cbn [snd]. split.
  - intros j Hj Hd. rewrite lookup_insert_ne by done.
    destruct (String.eqb _id (id d)); [done|]. by rewrite lookup_delete_ne.
  - intros Hne.
    assert (String.eqb _id (id d) = false) as -> by (by apply String.eqb_neq).
    assert (<[id d := mkPoint (to_base64 d) (embedding_to_array (embedding d))]>
              (delete _id c) !! _id = None) as Hgone.
    { rewrite lookup_insert_ne by done. apply lookup_delete_eq. }
    split; [done|]. split.
    + by rewrite get_doc_missing.
    + cbn. by rewrite id_exists_missing.
Qed.

(** X11.  [_del_doc_by_id] never raises, also when the identifier is
    not stored, in which case the collection is unchanged; afterwards
    the identifier is not in the collection and every other point is
    as before. *)
Theorem delete_by_id_removes_one_point (_id : string) (c : gmap string (@Point Blob)) :
  (_del_doc_by_id _id c).1 = inl tt
  /\ (__contains__ (VStr _id) (_del_doc_by_id _id c).2).1 = inl false
  /\ (forall j, j ≠ _id -> (_del_doc_by_id _id c).2 !! j = c !! j)
  /\ (c !! _id = None -> (_del_doc_by_id _id c).2 = c).
Proof.
  unfold _del_doc_by_id, delete_points. cbn. split; [done|]. split; [|split].
  - rewrite id_exists_missing; [done|]. apply lookup_delete_eq.
  - intros j Hj. by rewrite lookup_delete_ne.
  - intros Hnone. by apply delete_id.
Qed.


Lemma upsert_lookup_other (points : list (string * @Point Blob)) (j : string)
      (c : gmap string (@Point Blob)) :
  j ∉ points.*1 ->
  foldl (fun m '(i, p) => <[i := p]> m) c points !! j = c !! j.
Proof.
  revert c. induction points as [|[i p] points IH]; intros c Hj; [done|].
  cbn in *. apply not_elem_of_cons in Hj as [Hne Hj].
  rewrite IH by done. by rewrite lookup_insert_ne.
Qed.

Lemma upsert_lookup_last (pre post : list (string * @Point Blob)) (k : string)
      (p : Point) (c : gmap string (@Point Blob)) :
  k ∉ post.*1 ->
  foldl (fun m '(i, p) => <[i := p]> m) c (pre ++ (k, p) :: post) !! k = Some p.
Proof.
  intros Hk. rewrite foldl_app. cbn. rewrite upsert_lookup_other by done.
  apply lookup_insert_eq.
Qed.

(** X13.  After [_upload_batch(docs)], which never raises, the point
    stored under the identifier of a document of the batch that no
    later document of the batch shares its identifier with is the
    point of that document (the last one wins): its serialized
    payload and its vector, whose [dict] decodes to the document with
    a lossless serializer; the points whose identifier is not in the
    batch are as before. *)
Theorem upload_batch_last_wins (pre post : list Document) (d : Document)
        (c : gmap string (@Point Blob)) :
  lossless ->
  id d ∉ map id post ->
  (_upload_batch embedding_to_array (pre ++ d :: post) c).1 = inl tt
  /\ (_upload_batch embedding_to_array (pre ++ d :: post) c).2 !! id d
     = Some (mkPoint (to_base64 d) (embedding_to_array (embedding d)))
  /\ _qdrant_to_document
       (Dict (mkPoint (to_base64 d) (embedding_to_array (embedding d))))
     = inl (VDoc d)
  /\ (forall j, j ∉ map id (pre ++ d :: post) ->
        (_upload_batch embedding_to_array (pre ++ d :: post) c).2 !! j = c !! j).
Proof.
  intros Hrt Hlast. unfold _upload_batch, upsert_points. cbn [fst snd].
  split; [done|]. split; [|split].
  - rewrite map_app. cbn [map].
    apply upsert_lookup_last.
    intros Hin. apply Hlast.
    apply list_elem_of_fmap in Hin as ([i p] & Hi & Hin).
    apply list_elem_of_fmap in Hin as (d' & Hd' & Hin).
    apply list_elem_of_fmap. exists d'. split; [|done].
    unfold _document_to_qdrant in Hd'. cbn in Hi. congruence.
  - cbn. by rewrite Hrt.
  - intros j Hj. apply upsert_lookup_other.
    intros Hin. apply Hj.
    apply list_elem_of_fmap in Hin as ([i p] & Hi & Hin).
    apply list_elem_of_fmap in Hin as (d' & Hd' & Hin).
    apply list_elem_of_fmap. exists d'. split; [|done].
    unfold _document_to_qdrant in Hd'. cbn in Hi. congruence.
Qed.

(** *** [scan] *)

Variable scroll_batch_size : nat.
Variable scroll_points :
  option string -> nat -> gmap string (@Point Blob)
  -> list (string * @Point Blob) * option string.

Lemma yield_points_nothing (points : list (string * @Point Blob)) :
  yield_points points
  = ([], match points with [] => None | _ => Some StrIndexNotInt end).
Proof. by destruct points. Qed.

Lemma scan_loop_nothing (fuel : nat) (offset : option string)
      (c : gmap string (@Point Blob)) (yielded : list value) (e : option exn) :
  scan_loop scroll_batch_size scroll_points fuel offset c = Some (yielded, e) ->
  yielded = [].
Proof.
  revert offset yielded e.
  induction fuel as [|fuel IH]; intros offset yielded e; [discriminate|].
  cbn [scan_loop]. rewrite yield_points_nothing.
  destruct (scroll_points offset scroll_batch_size c) as [[|point points] next];
    cbn [fst snd]; [|congruence].
  destruct next as [next_page_offset|]; [|congruence].
  destruct (truthy (VStr next_page_offset)); [|congruence].
  destruct (scan_loop scroll_batch_size scroll_points fuel (Some next_page_offset) c)
    as [[later e']|] eqn:Hlater; [|discriminate].
  cbn. intros [= <- <-]. by apply (IH _ _ _ Hlater).
Qed.

(** X14.  [scan] never yields a document, whatever pages the server
    answers with: what it yields before it ends is nothing, and when
    the first page holds a point the generator raises [TypeError] at
    that point, since the point is turned into JSON text before it is
    decoded. *)
Theorem scan_never_yields (fuel : nat) (c : gmap string (@Point Blob)) :
  (forall yielded e,
      scan scroll_batch_size scroll_points fuel c = Some (yielded, e) ->
      yielded = [])
  /\ (forall point points next_page_offset,
        scroll_points None scroll_batch_size c
        = (point :: points, next_page_offset) ->
        scan scroll_batch_size scroll_points (S fuel) c
        = Some ([], Some StrIndexNotInt)
        /\ class_of StrIndexNotInt = TypeErrorC).
Proof.
  split.
  - intros yielded e. apply scan_loop_nothing.
  - intros point points next Hpage. split; [|reflexivity].
    unfold scan. cbn [scan_loop]. rewrite Hpage. reflexivity.
Qed.

End Facts.

Lemma set_then_get_by_own_id_raises_witness :
  lossless (ser := plain)
  /\ (_set_doc_by_id (ser := plain) zero_embedding "a" (doc "c" "new") qdrant_ab).2
       !! "c" = Some (mkPoint (doc "c" "new") [])
  /\ (_get_doc_by_id (ser := plain) "c"
        (_set_doc_by_id (ser := plain) zero_embedding "a" (doc "c" "new") qdrant_ab).2).1
     = inr StrIndexNotInt.
Proof.
  assert (lossless (ser := plain)) as Hrt by (intros d; reflexivity).
  split; [exact Hrt|]. split; [reflexivity|].
  apply (set_then_get_by_own_id_raises (ser := plain) zero_embedding "a"
           (doc "c" "new") qdrant_ab Hrt).
Defined.

Lemma set_touches_two_ids_witness :
  "b" ≠ "a" /\ "b" ≠ "c" /\ "a" ≠ "c"
  /\ ((_set_doc_by_id (ser := plain) zero_embedding "a" (doc "c" "new") qdrant_ab).2)
       !! "b" = qdrant_ab !! "b"
  /\ ((_set_doc_by_id (ser := plain) zero_embedding "a" (doc "c" "new") qdrant_ab).2)
       !! "a" = None.
Proof.
  destruct (set_touches_two_ids (ser := plain) zero_embedding "a" (doc "c" "new")
              qdrant_ab) as [Hother Hold].
  split; [discriminate|]. split; [discriminate|]. split; [discriminate|]. split.
  - apply Hother; discriminate.
  - apply Hold. discriminate.
Defined.

Lemma upload_batch_last_wins_witness :
  lossless (ser := plain)
  /\ ("a" ∉ map id [doc "e" EmptyString])
  /\ (_upload_batch (ser := plain) zero_embedding
        ([doc "a" "first"] ++ doc "a" "second" :: [doc "e" EmptyString])
        qdrant_ab).2 !! "a"
     = Some (mkPoint (doc "a" "second") []).
Proof.
  assert (lossless (ser := plain)) as Hrt by (intros d; reflexivity).
  assert ("a" ∉ map id [doc "e" EmptyString]) as Hlast.
  { intros Hin. apply list_elem_of_singleton in Hin. discriminate. }
  split; [exact Hrt|]. split; [exact Hlast|].
  apply (upload_batch_last_wins (ser := plain) zero_embedding
           [doc "a" "first"] [doc "e" EmptyString] (doc "a" "second")
           qdrant_ab Hrt Hlast).
Defined.

Lemma scan_never_yields_witness :
  scan (ser := plain) 1 scroll_one_page 1 qdrant_ab
  = Some ([], Some StrIndexNotInt).
Proof.
  destruct (scan_never_yields (ser := plain) 1 scroll_one_page 0 qdrant_ab)
    as [_ Hraises].
  destruct (map_to_list qdrant_ab) as [|point points] eqn:Hpoints.
  - apply (f_equal length) in Hpoints. rewrite length_map_to_list in Hpoints.
    vm_compute in Hpoints. discriminate.
  - apply (proj1 (Hraises point points None
                    (f_equal (fun l => (l, None)) Hpoints))).
Defined.

End QdrantMore.

(** ** More about the Redis mixin *)

Module RedisMore.
Import Py Eff.
Local Open Scope py_scope.

Section Table.
Import RedisBackend.

Lemma save_result (s : Self) :
  _save_offset2ids s
  = (inl tt,
     mkSelf (if (0 <? length (_offset2ids s))%nat
             then <[_offset2id_key := Redis.RList (_offset2ids s)]>
                    (delete _offset2id_key (_client s))
             else delete _offset2id_key (_client s))
            (_offset2ids s)).
Proof.
  unfold _save_offset2ids, _update_offset2ids_meta, bind, client_exists, get.
  destruct (bool_decide_reflect (is_Some (_client s !! _offset2id_key))) as [Hin|Hout].
  - cbn [negb client_delete _offset2ids _client].
    destruct (0 <? length (_offset2ids s))%nat; [|reflexivity].
    unfold client_rpush. cbn [_client _offset2ids]. by rewrite lookup_delete_eq.
  - apply eq_None_not_Some in Hout. cbn [ret].
    rewrite (delete_id (_client s)) by done.
    destruct (0 <? length (_offset2ids s))%nat.
    + unfold client_rpush. by rewrite Hout.
    + unfold ret. by destruct s.
Qed.

(** X15.  The table saved by [_save_offset2ids] is the table
    [_load_offset2ids] reads back, on any object that shares the
    server, whatever the key held before and also for the empty
    table; neither call raises. *)
Theorem offset2ids_round_trip (s : Self) (other : list string) :
  (_save_offset2ids s).1 = inl tt
  /\ (_load_offset2ids (mkSelf (_client (_save_offset2ids s).2) other)).1 = inl tt
  /\ _offset2ids
       (_load_offset2ids (mkSelf (_client (_save_offset2ids s).2) other)).2
     = _offset2ids s.
Proof.
  rewrite save_result. cbn [fst snd _client]. split; [done|].
  unfold _load_offset2ids, _get_offset2ids_meta, bind, client_exists.
  cbn [_client].
  destruct (_offset2ids s) as [|i ids] eqn:E.
  - cbn. rewrite lookup_delete_eq. cbn. done.
  - cbn. rewrite lookup_insert_eq. cbn.
    unfold client_lrange_all. cbn. rewrite lookup_insert_eq. done.
Qed.

(** X16.  [_save_offset2ids] writes under the key ['offset2id'] only
    and leaves the table of the object as it is; [_load_offset2ids]
    does not write to the server. *)
Theorem offset2ids_frame (s : Self) :
  (forall key, key ≠ _offset2id_key ->
     _client (_save_offset2ids s).2 !! key = _client s !! key)
  /\ _offset2ids (_save_offset2ids s).2 = _offset2ids s
  /\ _client (_load_offset2ids s).2 = _client s.
Proof.
  rewrite save_result. cbn [snd _client _offset2ids]. split; [|split; [done|]].
  - intros key Hkey. destruct (0 <? length (_offset2ids s))%nat.
    + rewrite lookup_insert_ne by done. by rewrite lookup_delete_ne.
    + by rewrite lookup_delete_ne.
  - unfold _load_offset2ids, _get_offset2ids_meta, bind, client_exists.
    destruct (bool_decide (is_Some (_client s !! _offset2id_key))); cbn; [|done].
    unfold client_lrange_all.
    destruct (_client s !! _offset2id_key) as [[]|]; done.
Qed.

(** X17.  The schema starts with the vector field ['embedding'] of
    the configured method.  That field carries the three HNSW
    parameters together or not at all: they are there exactly when the
    method is ['HNSW'] and one of [m], [ef_construction], [ef_runtime]
    is set and not zero, and then each that is unset or zero has its
    default (16, 200, 10); ['BLOCK_SIZE'] is there exactly for ['FLAT']
    with a block size that is set and not zero. *)
Theorem index_param_options {Column : Type}
        (_map_column : string -> string -> Column) (config : RedisConfig) :
  let hnsw := String.eqb (method config) "HNSW"
              && (is_set (m config) || is_set (ef_construction config)
                  || is_set (ef_runtime config)) in
  exists index_param,
    head (_build_schema_from_redis_config _map_column config)
    = Some (VectorField "embedding" (method config) index_param)
    /\ index_param !! "M"
       = (if hnsw then Some (VInt (or_else (m config) 16)) else None)
    /\ index_param !! "EF_CONSTRUCTION"
       = (if hnsw then Some (VInt (or_else (ef_construction config) 200)) else None)
    /\ index_param !! "EF_RUNTIME"
       = (if hnsw then Some (VInt (or_else (ef_runtime config) 10)) else None)
    /\ index_param !! "BLOCK_SIZE"
       = (if String.eqb (method config) "FLAT" && is_set (block_size config)
          then Some (VInt (default 0 (block_size config))) else None)
    /\ index_param !! "DIM" = Some (VInt (n_dim config)).
Proof.
  cbn zeta. exists (index_param_of config). split.
  { unfold _build_schema_from_redis_config.
    destruct (index_text config); reflexivity. }
  unfold index_param_of.
  destruct (String.eqb (method config) "HNSW"
            && (is_set (m config) || is_set (ef_construction config)
                || is_set (ef_runtime config)));
    destruct (String.eqb (method config) "FLAT" && is_set (block_size config));
    destruct (is_set (initial_cap config));
    repeat split;
    repeat (first [ rewrite lookup_insert_eq
                  | rewrite lookup_insert_ne by discriminate
                  | rewrite lookup_union
                  | rewrite lookup_empty ]);
    reflexivity.
Qed.

End Table.

Section Documents.
Import Redis.
Context {Blob : Type} {ser : Serializer Blob} {env : Env Blob}.

(** X18.  With the configuration as [RedisConfig] declares it,
    [_set_doc_by_id] under an identifier other than the document's own
    raises [AttributeError] from the delete of the old identifier,
    before anything is written: [_add] is not reached and no command
    is issued.  Under the document's own identifier it is exactly
    [_add] of the identifier, without prefix, and of the payload of
    the document. *)
Theorem set_by_id_under_another_id_raises
        (_id : string) (value : Document) (c : Client) :
  (key_prefix = None -> _id ≠ id value ->
   _set_doc_by_id _id value c
   = (inr (NoAttribute "RedisConfig" "key_prefix"), c))
  /\ (_id = id value ->
      _set_doc_by_id _id value c = _add _id (_document_to_redis value) c).
Proof.
  unfold _set_doc_by_id, bind. split.
  - intros Hnone Hother. apply String.eqb_neq in Hother. rewrite Hother. cbn.
    by rewrite RedisFacts._del_doc_by_id_no_prefix.
  - intros Hsame. apply String.eqb_eq in Hsame. rewrite Hsame. reflexivity.
Qed.

(** X19.  With the configuration as [RedisConfig] declares it,
    [_get_doc_by_id] raises [KeyError] of the identifier for every
    identifier, stored or not: the [AttributeError] of the missing
    [key_prefix] is raised inside the [try] and re-raised as
    [KeyError]; no command is issued and the keyspace is as it
    was. *)
Theorem get_by_id_raises_key_error (_id : string) (c : Client) :
  key_prefix = None ->
  _get_doc_by_id _id c = (inr (KeyError (VStr _id)), c)
  /\ class_of (KeyError (VStr _id)) = KeyErrorC.
Proof.
  intros Hnone. split; [|reflexivity].
  by apply RedisFacts._getitem_no_prefix.
Qed.

Lemma foldl_insert_lookup {A} (f : A -> string) (h : string -> value)
      (l : list A) (m0 : gmap string value) (k : string) :
  foldl (fun acc x => <[f x := h (f x)]> acc) m0 l !! k
  = if bool_decide (k ∈ map f l) then Some (h k) else m0 !! k.
Proof.
  revert m0. induction l as [|x l IH]; intros m0.
  - cbn. rewrite bool_decide_eq_false_2; [done|]. apply not_elem_of_nil.
  - cbn [foldl map]. rewrite IH.
    destruct (bool_decide_reflect (k ∈ map f l)) as [Hin|Hout].
    + rewrite bool_decide_eq_true_2; [done|]. by right.
    + destruct (decide (k = f x)) as [->|Hne].
      * rewrite bool_decide_eq_true_2 by left. apply lookup_insert_eq.
      * rewrite bool_decide_eq_false_2.
        -- by rewrite lookup_insert_ne.
        -- intros Hin. apply elem_of_cons in Hin as [?|?]; done.
Qed.

Lemma columns_foldl (doc : Document) (cols : list (string * string))
      (m0 : gmap string value) :
  foldl (fun acc '(col, _) => <[col := tags_get doc col]> acc) m0 cols
  = foldl (fun acc x => <[x.1 := tags_get doc x.1]> acc) m0 cols.
Proof.
  revert m0. induction cols as [|[col t] cols IH]; intros m0; [done|]. apply IH.
Qed.

(** What the payload holds under each key. *)
Lemma payload_lookup (doc : Document) (k : string) :
  _document_to_redis doc !! k
  = if String.eqb k "text" && negb (Nat.eqb (String.length (text doc)) 0)
    then Some (VStr (text doc))
    else if bool_decide (k ∈ tag_indices)
         then Some (tags_get doc k)
         else if bool_decide (k ∈ map fst columns)
              then Some (tags_get doc k)
              else if String.eqb k "blob" then Some (blob_value (to_base64 doc))
                   else if String.eqb k "embedding"
                        then Some (_map_embedding (embedding doc))
                        else None.
Proof.
  unfold _document_to_redis.
  assert (forall payload : gmap string value,
            (if negb (Nat.eqb (String.length (text doc)) 0)
             then <["text" := VStr (text doc)]> payload else payload) !! k
            = if String.eqb k "text" && negb (Nat.eqb (String.length (text doc)) 0)
              then Some (VStr (text doc)) else payload !! k) as Htext.
  { intros payload. destruct (String.eqb_spec k "text") as [->|Hk];
      destruct (negb (Nat.eqb (String.length (text doc)) 0)); cbn; try done.
    - apply lookup_insert_eq.
    - by rewrite lookup_insert_ne. }
  rewrite Htext.
  destruct (String.eqb k "text" && negb (Nat.eqb (String.length (text doc)) 0));
    [reflexivity|].
  rewrite (foldl_insert_lookup (fun x => x) (tags_get doc)), list_fmap_id.
  destruct (bool_decide (k ∈ tag_indices)); [reflexivity|].
  rewrite columns_foldl, lookup_union.
  rewrite (foldl_insert_lookup fst (tags_get doc)).
  destruct (bool_decide (k ∈ map fst columns)).
  - by destruct (_ !! k).
  - rewrite lookup_empty.
    destruct (String.eqb_spec k "blob") as [->|Hblob].
    + by rewrite lookup_insert_eq.
    + rewrite lookup_insert_ne by done.
      destruct (String.eqb_spec k "embedding") as [->|Hemb].
      * by rewrite lookup_insert_eq.
      * rewrite lookup_insert_ne by done. by rewrite lookup_empty.
Qed.

(** X20.  The payload of a document holds a value under ['embedding']
    and ['blob'], under every configured column and tag index, under
    ['text'] when the text of the document is not empty, and under no
    other key. *)
Theorem payload_keys (doc : Document) (k : string) :
  is_Some (_document_to_redis doc !! k)
  <-> k = "embedding" \/ k = "blob" \/ k ∈ map fst columns \/ k ∈ tag_indices
      \/ (k = "text" /\ text doc ≠ EmptyString).
Proof.
  rewrite payload_lookup.
  assert (negb (Nat.eqb (String.length (text doc)) 0) = true
          <-> text doc ≠ EmptyString) as Htext.
  { destruct (text doc); cbn; split; congruence. }
  destruct (String.eqb_spec k "text") as [->|Hk]; cbn [andb].
  - destruct (negb (Nat.eqb (String.length (text doc)) 0)) eqn:E.
    + split; [|by eexists]. intros _. do 4 right. split; [done|]. by apply Htext.
    + assert (~ text doc ≠ EmptyString) as Hno by (rewrite <- Htext; congruence).
      destruct (bool_decide_reflect ("text" ∈ tag_indices)) as [Ht|Ht];
        [split; [auto|by eexists]|].
      destruct (bool_decide_reflect ("text" ∈ map fst columns)) as [Hc|Hc];
        [split; [auto|by eexists]|].
      cbn. split; [by intros [? ?]|].
      intros [?|[?|[?|[?|[_ ?]]]]]; try discriminate; done.
  - destruct (bool_decide_reflect (k ∈ tag_indices)) as [Ht|Ht];
      [split; [auto|by eexists]|].
    destruct (bool_decide_reflect (k ∈ map fst columns)) as [Hc|Hc];
      [split; [auto|by eexists]|].
    destruct (String.eqb_spec k "blob") as [->|Hblob]; [split; [auto|by eexists]|].
    destruct (String.eqb_spec k "embedding") as [->|Hemb];
      [split; [auto|by eexists]|].
    split; [by intros [? ?]|].
    intros [?|[?|[?|[?|[? _]]]]]; done.
Qed.

(** X21.  In the payload, a configured column or tag index holds
    [doc.tags.get] of its name, also when the name is ['blob'] or
    ['embedding'], which then replaces the serialized document or the
    embedding; the only exception is ['text'], which holds the text of
    the document when that is not empty. *)
Theorem payload_values (doc : Document) (k : string) :
  k ∈ map fst columns \/ k ∈ tag_indices ->
  _document_to_redis doc !! k
  = if String.eqb k "text" && negb (Nat.eqb (String.length (text doc)) 0)
    then Some (VStr (text doc))
    else Some (tags_get doc k).
Proof.
  intros Hk. rewrite payload_lookup.
  destruct (String.eqb k "text" && negb (Nat.eqb (String.length (text doc)) 0));
    [reflexivity|].
  destruct (bool_decide_reflect (k ∈ tag_indices)) as [Ht|Ht]; [reflexivity|].
  destruct (bool_decide_reflect (k ∈ map fst columns)) as [Hc|Hc]; [reflexivity|].
  by destruct Hk.
Qed.

End Documents.

Lemma offset2ids_round_trip_witness :
  RedisBackend._client MoreSamples.redis_self !! "offset2id"
  = Some (Redis.RList ["x"; "y"; "z"])
  /\ RedisBackend._offset2ids
       (RedisBackend._load_offset2ids
          (RedisBackend.mkSelf
             (RedisBackend._client
                (RedisBackend._save_offset2ids MoreSamples.redis_self).2) [])).2
     = ["a"; "b"].
Proof.
  split; [reflexivity|].
  apply (offset2ids_round_trip MoreSamples.redis_self []).
Defined.

Lemma set_by_id_under_another_id_raises_witness :
  Redis.key_prefix (Env := Samples.redis_env) = None
  /\ "b" ≠ id (Samples.doc "a" EmptyString)
  /\ Redis._set_doc_by_id (ser := Samples.plain) (env := Samples.redis_env)
       "b" (Samples.doc "a" EmptyString) Samples.redis_empty
     = (inr (NoAttribute "RedisConfig" "key_prefix"), Samples.redis_empty).
Proof.
  assert ("b" ≠ id (Samples.doc "a" EmptyString)) as Hother by discriminate.
  split; [reflexivity|]. split; [exact Hother|].
  apply (proj1 (set_by_id_under_another_id_raises (ser := Samples.plain)
                  (env := Samples.redis_env) "b" (Samples.doc "a" EmptyString)
                  Samples.redis_empty) eq_refl Hother).
Defined.

Lemma get_by_id_raises_key_error_witness :
  Redis.key_prefix (Env := Samples.redis_env) = None
  /\ Redis._get_doc_by_id (env := Samples.redis_env) "a"
       (Redis.mkClient (<["a" := Redis.RString "x"]> ∅) [])
     = (inr (KeyError (VStr "a")), Redis.mkClient (<["a" := Redis.RString "x"]> ∅) []).
Proof.
  split; [reflexivity|].
  apply (get_by_id_raises_key_error (env := Samples.redis_env) "a"
           (Redis.mkClient (<["a" := Redis.RString "x"]> ∅) []) eq_refl).
Defined.

Lemma payload_values_witness :
  ("blob" ∈ map fst (Redis.columns (Env := MoreSamples.redis_env_blob_column))
   \/ "blob" ∈ Redis.tag_indices (Env := MoreSamples.redis_env_blob_column))
  /\ Redis._document_to_redis (ser := Samples.plain)
       (env := MoreSamples.redis_env_blob_column) MoreSamples.tagged_doc !! "blob"
     = Some (VStr "tagged").
Proof.
  assert ("blob" ∈ map fst (Redis.columns (Env := MoreSamples.redis_env_blob_column))
          \/ "blob" ∈ Redis.tag_indices (Env := MoreSamples.redis_env_blob_column))
    as Hk by (left; left).
  split; [exact Hk|].
  rewrite (payload_values (ser := Samples.plain)
             (env := MoreSamples.redis_env_blob_column) MoreSamples.tagged_doc "blob" Hk).
  reflexivity.
Defined.

End RedisMore.

(** ** More about the Elasticsearch mixin *)

Module ElasticMore.
Import Py Eff.
Local Open Scope py_scope.

Section Extend.
Import Elastic ElasticFacts.
Context {Blob : Type} {ser : Serializer Blob}.
Variable _map_embedding : option (list Q) -> list Q.

(** X22.  [extend] composes: extending with one batch and then with
    another leaves the index and the Offset2ID table as extending once
    with the two batches joined does; no call raises. *)
Theorem extend_in_two_batches (batch1 batch2 : list Document)
        (st : Store (Blob := Blob)) :
  extend _map_embedding (batch1 ++ batch2) st
  = extend _map_embedding batch2 (extend _map_embedding batch1 st).2
  /\ (extend _map_embedding (batch1 ++ batch2) st).1 = inl tt.
Proof.
  rewrite !extend_result. cbn [fst snd index offset2ids]. split; [|done].
  by rewrite !map_app, foldl_app, app_assoc.
Qed.

Lemma foldl_put_lookup_other (values : list Document)
      (ix : gmap string (list Q * Blob)) (i : string) :
  i ∉ map id values ->
  foldl put ix (map (action_of _map_embedding) values) !! i = ix !! i.
Proof.
  revert ix. induction values as [|d values IH]; intros ix Hi; [reflexivity|].
  cbn in *. apply not_elem_of_cons in Hi as [Hne Hi].
  rewrite IH by done. unfold put. cbn. by rewrite lookup_insert_ne.
Qed.

Lemma foldl_put_size_bounds (values : list Document) (ix : gmap string (list Q * Blob)) :
  (size ix <= size (foldl put ix (map (action_of _map_embedding) values))
   <= size ix + length values)%nat.
Proof.
  revert ix. induction values as [|d values IH]; intros ix; [cbn; lia|].
  cbn [map foldl length].
  specialize (IH (put ix (action_of _map_embedding d))).
  assert (size ix <= size (put ix (action_of _map_embedding d)) <= S (size ix))%nat.
  { unfold put. destruct (ix !! _id (action_of _map_embedding d)) eqn:E.
    - rewrite map_size_insert_Some by done. lia.
    - rewrite map_size_insert_None by done. lia. }
  lia.
Qed.

(** X23.  Whatever the collection held, after [extend(docs)] the
    Offset2ID table is longer by exactly [len(docs)], while the
    collection has grown by [len(docs)] at most; every identifier of
    [docs] exists in the index, and a document that no later one in
    [docs] shares its identifier with is the one stored under it, with
    the mapped embedding. *)
Theorem extend_effect (pre post : list Document) (d : Document)
        (st : Store (Blob := Blob)) :
  id d ∉ map id post ->
  length (offset2ids (extend _map_embedding (pre ++ d :: post) st).2)
  = (length (offset2ids st) + length (pre ++ d :: post))%nat
  /\ (__len__ st <= __len__ (extend _map_embedding (pre ++ d :: post) st).2
      <= __len__ st + length (pre ++ d :: post))%nat
  /\ _doc_id_exists (extend _map_embedding (pre ++ d :: post) st).2 (id d) = true
  /\ index (extend _map_embedding (pre ++ d :: post) st).2 !! id d
     = Some (_map_embedding (embedding d),
             to_base64 (mkDocument (id d) (text d)
                                   (Some (_map_embedding (embedding d)))
                                   (tensor d) (tags d))).
Proof.
  intros Hlast. rewrite extend_result. cbn [snd offset2ids index].
  assert (foldl put (index st) (map (action_of _map_embedding) (pre ++ d :: post))
            !! id d
          = Some (_map_embedding (embedding d),
                  to_base64 (mkDocument (id d) (text d)
                                        (Some (_map_embedding (embedding d)))
                                        (tensor d) (tags d)))) as Hd.
  { rewrite map_app, foldl_app. cbn [map foldl].
    rewrite foldl_put_lookup_other by done. unfold put. cbn.
    apply lookup_insert_eq. }
  split; [|split; [|split]].
  - by rewrite length_app, length_map.
  - unfold __len__. cbn [index]. apply foldl_put_size_bounds.
  - unfold _doc_id_exists. cbn [index]. rewrite Hd. by apply bool_decide_eq_true_2.
  - exact Hd.
Qed.

End Extend.

Section Sanitize.
Import ElasticBackend.
Variable isalnum : ascii -> bool.

Lemma keep_legal_all_legal (s : string) :
  all_chars (legal isalnum) (keep_legal isalnum s) = true.
Proof.
  induction s as [|c s IH]; [reflexivity|]. cbn.
  destruct (legal isalnum c) eqn:E; [|exact IH]. cbn. by rewrite E.
Qed.

Lemma keep_legal_fixed (s : string) :
  all_chars (legal isalnum) s = true -> keep_legal isalnum s = s.
Proof.
  induction s as [|c s IH]; [reflexivity|]. cbn.
  destruct (legal isalnum c); [|discriminate]. cbn. intros Hs. by rewrite IH.
Qed.

Lemma keep_legal_length (s : string) :
  (String.length (keep_legal isalnum s) <= String.length s)%nat.
Proof.
  induction s as [|c s IH]; [reflexivity|]. cbn.
  destruct (legal isalnum c); cbn; lia.
Qed.

Lemma keep_legal_changed (s : string) :
  all_chars (legal isalnum) s = false -> keep_legal isalnum s ≠ s.
Proof.
  intros Hs Heq.
  assert (String.length (keep_legal isalnum s) < String.length s)%nat; [|rewrite Heq in *; lia].
  clear Heq. induction s as [|c s IH]; [discriminate|]. cbn in *.
  destruct (legal isalnum c); cbn in *.
  - apply IH in Hs. lia.
  - pose proof (keep_legal_length s). lia.
Qed.

(** X24.  The sanitized table name holds alphanumeric characters and
    underscores only; it is the name itself exactly when the name
    holds no other character, and that is exactly when no warning is
    issued; the warning shows the sanitized name. *)
Theorem sanitized_name_is_legal (table_name : string) :
  all_chars (legal isalnum) (_sanitize_table_name isalnum table_name).1 = true
  /\ ((_sanitize_table_name isalnum table_name).1 = table_name
      <-> all_chars (legal isalnum) table_name = true)
  /\ ((_sanitize_table_name isalnum table_name).2 = None
      <-> all_chars (legal isalnum) table_name = true)
  /\ (all_chars (legal isalnum) table_name = false ->
      (_sanitize_table_name isalnum table_name).2
      = Some (_sanitize_table_name isalnum table_name).1).
Proof.
  unfold _sanitize_table_name. cbn [fst snd].
  split; [apply keep_legal_all_legal|].
  destruct (all_chars (legal isalnum) table_name) eqn:E.
  - rewrite keep_legal_fixed by done. rewrite String.eqb_refl. cbn.
    repeat split; auto; discriminate.
  - pose proof (keep_legal_changed _ E) as Hne.
    apply String.eqb_neq in Hne as Hb. rewrite Hb. cbn.
    repeat split; auto; try discriminate; done.
Qed.

(** X25.  Sanitizing is idempotent: a sanitized name is returned as it
    is, without a warning. *)
Theorem sanitize_twice (table_name : string) :
  _sanitize_table_name isalnum (_sanitize_table_name isalnum table_name).1
  = ((_sanitize_table_name isalnum table_name).1, None).
Proof.
  unfold _sanitize_table_name at 1. cbn [fst].
  rewrite (keep_legal_fixed (_sanitize_table_name isalnum table_name).1)
    by apply keep_legal_all_legal.
  by rewrite String.eqb_refl.
Qed.

End Sanitize.

Section Table.
Import ElasticBackend.

Lemma map_seq_size (start : nat) (l : list string) :
  size (map_seq start l : gmap nat string) = length l.
Proof.
  revert start. induction l as [|x l IH]; intros start; [apply map_size_empty|].
  cbn. rewrite map_size_insert_None by apply map_seq_cons_disjoint.
  by rewrite IH.
Qed.

Lemma blobs_map_seq (l : list string) (start n : nat) :
  (start + n <= length l)%nat ->
  blobs (map_seq 0 l) (seq start n) = inl (take n (drop start l)).
Proof.
  revert start. induction n as [|n IH]; intros start Hn.
  - by rewrite take_0.
  - cbn [seq blobs]. rewrite lookup_map_seq_0.
    destruct (l !! start) as [x|] eqn:E.
    + rewrite IH by lia.
      rewrite (drop_S l x start) by done. reflexivity.
    + apply lookup_ge_None in E. lia.
Qed.

Lemma bulk_offsets_lookup (ids : list string) (start : nat)
      (ix : gmap nat string) (i : nat) :
  bulk_offsets (zip (seq start (length ids)) ids) ix !! i
  = if bool_decide (start <= i < start + length ids)%nat
    then ids !! (i - start)%nat else ix !! i.
Proof.
  revert start ix. induction ids as [|x ids IH]; intros start ix.
  - cbn. rewrite bool_decide_eq_false_2; [done|lia].
  - cbn [length seq zip combine bulk_offsets foldl].
    fold (bulk_offsets (zip (seq (S start) (length ids)) ids) (<[start := x]> ix)).
    rewrite IH.
    destruct (bool_decide_reflect (S start <= i < S start + length ids)%nat) as [Hi|Hi].
    + rewrite bool_decide_eq_true_2 by lia.
      replace (i - start)%nat with (S (i - S start)) by lia. reflexivity.
    + destruct (decide (i = start)) as [->|Hne].
      * rewrite bool_decide_eq_true_2 by lia.
        rewrite lookup_insert_eq, Nat.sub_diag. reflexivity.
      * rewrite bool_decide_eq_false_2 by lia. by rewrite lookup_insert_ne.
Qed.

Lemma bulk_offsets_map_seq (ids old : list string) :
  bulk_offsets (enumerate ids) (map_seq 0 old)
  = map_seq 0 (ids ++ drop (length ids) old).
Proof.
  apply map_eq. intros i. unfold enumerate.
  rewrite bulk_offsets_lookup, !lookup_map_seq_0.
  destruct (bool_decide_reflect (0 <= i < 0 + length ids)%nat) as [Hi|Hi].
  - rewrite lookup_app_l by lia. by rewrite Nat.sub_0_r.
  - rewrite lookup_app_r by lia. rewrite lookup_drop. f_equal. lia.
Qed.

Lemma get_of_map_seq (l ids : list string) :
  _get_offset2ids_meta (mkSelf (Some (mkServer (Some (map_seq 0 l)))) ids)
  = (inl l, mkSelf (Some (mkServer (Some (map_seq 0 l)))) ids).
Proof.
  unfold _get_offset2ids_meta. cbn [_client offset2id_index].
  rewrite map_seq_size. destruct l as [|x l]; [reflexivity|].
  cbn [length Nat.eqb negb].
  rewrite blobs_map_seq by (cbn; lia).
  rewrite drop_0, take_ge by (cbn; lia). reflexivity.
Qed.

(** X26.  When the Offset2ID index holds a table [old] (offset [k]
    holds [old[k]]), after [_update_offset2ids_meta] the table read
    back by [_get_offset2ids_meta] is the saved table followed by the
    entries of [old] beyond its length: the entries of a longer old
    table are not removed.  It is the saved table exactly when [old]
    is not longer. *)
Theorem saved_table_keeps_stale_tail (old ids other : list string) :
  let s := mkSelf (Some (mkServer (Some (map_seq 0 old)))) ids in
  (_update_offset2ids_meta s).1 = inl tt
  /\ (_get_offset2ids_meta
        (mkSelf (_client (_update_offset2ids_meta s).2) other)).1
     = inl (ids ++ drop (length ids) old)
  /\ ((length old <= length ids)%nat ->
      (_get_offset2ids_meta
         (mkSelf (_client (_update_offset2ids_meta s).2) other)).1
      = inl ids).
Proof.
  cbn zeta. unfold _update_offset2ids_meta. cbn [_client offset2id_index fst snd _offset2ids].
  rewrite bulk_offsets_map_seq, get_of_map_seq. cbn [fst].
  split; [done|]. split; [done|].
  intros Hlen. rewrite drop_ge by done. by rewrite app_nil_r.
Qed.

(** X27.  On an index just built by [_build_offset2id_index], whatever
    the server held before, the table saved by
    [_update_offset2ids_meta] is the table [_get_offset2ids_meta]
    reads back; on a server without the index the update saves
    nothing and raises nothing, and the read raises. *)
Theorem fresh_index_round_trip (server : Server) (ids other : list string) :
  let s := mkSelf (Some server) ids in
  (_get_offset2ids_meta
     (mkSelf (_client (_update_offset2ids_meta (_build_offset2id_index s).2).2)
             other)).1
  = inl ids
  /\ _update_offset2ids_meta (mkSelf (Some (mkServer None)) ids)
     = (inl tt, mkSelf (Some (mkServer None)) ids)
  /\ (_get_offset2ids_meta (mkSelf (Some (mkServer None)) other)).1
     = inr NotFoundError.
Proof.
  cbn zeta. split; [|split; reflexivity].
  unfold _build_offset2id_index. cbn [_client snd _offset2ids].
  change (∅ : gmap nat string) with (map_seq 0 [] : gmap nat string).
  unfold _update_offset2ids_meta. cbn [_client offset2id_index fst snd _offset2ids].
  rewrite bulk_offsets_map_seq, get_of_map_seq. cbn [fst].
  by rewrite drop_nil, app_nil_r.
Qed.

End Table.

Lemma sanitized_name_is_legal_witness :
  ElasticBackend._sanitize_table_name MoreSamples.ascii_isalnum "my-table 1"
  = ("mytable1", Some "mytable1")
  /\ ElasticBackend.all_chars (ElasticBackend.legal MoreSamples.ascii_isalnum)
       "mytable1" = true.
Proof.
  split; [reflexivity|].
  apply (sanitized_name_is_legal MoreSamples.ascii_isalnum "my-table 1").
Defined.

Lemma saved_table_keeps_stale_tail_witness :
  (ElasticBackend._get_offset2ids_meta
     (ElasticBackend.mkSelf
        (ElasticBackend._client
           (ElasticBackend._update_offset2ids_meta MoreSamples.elastic_self).2)
        [])).1
  = inl ["a"; "b"; "z"].
Proof.
  apply (saved_table_keeps_stale_tail ["x"; "y"; "z"] ["a"; "b"] []).
Defined.

Lemma extend_effect_witness :
  ("a" ∉ map id [Samples.doc "e" EmptyString])
  /\ Elastic.index
       (Elastic.extend (ser := Samples.plain) Samples.zero_embedding
          ([Samples.doc "a" "first"] ++ Samples.doc "a" "second"
             :: [Samples.doc "e" EmptyString])
          Samples.elastic_empty).2 !! "a"
     = Some ([], mkDocument "a" "second" (Some []) None []).
Proof.
  assert ("a" ∉ map id [Samples.doc "e" EmptyString]) as Hlast.
  { intros Hin. apply list_elem_of_singleton in Hin. discriminate. }
  split; [exact Hlast|].
  apply (extend_effect (ser := Samples.plain) Samples.zero_embedding
           [Samples.doc "a" "first"] [Samples.doc "e" EmptyString]
           (Samples.doc "a" "second") Samples.elastic_empty Hlast).
Defined.

End ElasticMore.
